(** * pyminiaudio: the decode front end and the device callback bridge

    A shallow embedding of [miniaudio.py]: the sample format helpers, the
    [DecodedSoundFile] constructor, the extension dispatcher
    ([get_file_info], [read_file]), the streaming generator
    ([_samples_generator], [stream_file], [stream_memory]) and the device
    classes ([AbstractDevice], [CaptureDevice], [PlaybackDevice],
    [DuplexStream]) with the native entry point [internal_data_callback].

    Python integers are [Z]; byte buffers are [list byte]; a raised
    exception is the [Raise] branch of [result]; attribute updates are
    explicit state passing; the cffi library [lib] and the application's
    generator objects are interfaces (type classes) the development is
    parametric in. *)

From Stdlib Require Import ZArith List Bool Ascii String Lia.
From Stdlib Require Import Strings.Byte.
From Stdlib Require Import DecimalString.
From stdpp Require Import gmap strings.
Import ListNotations.

Open Scope Z_scope.

(* ===================================================================== *)
(** ** Python values, exceptions and results                              *)
(* ===================================================================== *)

(** The names imported from [_miniaudio.lib] on line 16 of the module. *)
Inductive ma_format : Type :=
| ma_format_unknown
| ma_format_u8
| ma_format_s16
| ma_format_s24
| ma_format_s32
| ma_format_f32.

Definition ma_format_eqb (a b : ma_format) : bool :=
  match a, b with
  | ma_format_unknown, ma_format_unknown
  | ma_format_u8, ma_format_u8
  | ma_format_s16, ma_format_s16
  | ma_format_s24, ma_format_s24
  | ma_format_s32, ma_format_s32
  | ma_format_f32, ma_format_f32 => true
  | _, _ => false
  end.

(** [array.array]: a type code, its item size in bytes and the raw items. *)
Record array : Type := Array {
  typecode : ascii;
  itemsize : Z;
  raw : list byte
}.

(** A [memoryview]: whether it has been released, the size of one item,
    its shape (one entry per dimension, none for a 0-dim view), whether
    it is C-contiguous, and the bytes of the memory it exposes. *)
Record memview : Type := MemView {
  mv_released : bool;
  mv_itemsize : Z;
  mv_shape : list Z;
  mv_c_contiguous : bool;
  mv_bytes : list byte
}.

(** The Python objects that cross the interfaces modelled here. *)
Inductive pyval : Type :=
| PyNone
| PyInt (z : Z)
| PyBytes (b : list byte)
| PyByteArray (b : list byte)
| PyArray (a : array)
| PyMemoryview (m : memview).

(** The extra arguments an exception is raised with, after its message. *)
Inductive exn_arg : Type :=
| ArgInt (z : Z)
| ArgFormat (f : ma_format).

Inductive exn : Type :=
| MiniaudioError (msg : string) (args : list exn_arg)
| DecodeError (msg : string) (args : list exn_arg)
| ValueError (msg : string) (args : list exn_arg)
| TypeError (msg : string)
| OverflowError (msg : string)
| KeyError (key : Z)
| ZeroDivisionError
| FileNotFoundError (filename : string)
| AssertionError
| StopIteration
| BufferError (msg : string)
| ApplicationError (tag : Z).

Inductive result (A : Type) : Type :=
| Return (a : A)
| Raise (e : exn).

Arguments Return {A} a.
Arguments Raise {A} e.

#[global] Instance result_ret : MRet result := fun A a => Return a.

#[global] Instance result_bind : MBind result := fun A B k r =>
  match r with
  | Return a => k a
  | Raise e => Raise e
  end.

Definition blen (b : list byte) : Z := Z.of_nat (List.length b).

Definition released_error : exn :=
  ValueError "operation forbidden on released memoryview object" [].

(** [len(m)] of a memoryview: the first entry of its shape. *)
Definition memview_len (m : memview) : result Z :=
  if mv_released m then Raise released_error
  else
    match mv_shape m with
    | [] => Raise (TypeError "0-dim memory has no length")
    | d :: _ => Return d
    end.

(** [m.cast('B')]: only a C-contiguous view can be cast, and a view of
    more or fewer than one dimension must have no zero in its shape; the
    result is a one-dimensional view of all the bytes. *)
Definition memview_cast_B (m : memview) : result memview :=
  if mv_released m then Raise released_error
  else if negb (mv_c_contiguous m) then
    Raise (TypeError "memoryview: casts are restricted to C-contiguous views")
  else if negb (Nat.eqb (List.length (mv_shape m)) 1) && existsb (Z.eqb 0) (mv_shape m) then
    Raise (TypeError "memoryview: cannot cast view with zeros in shape or strides")
  else Return (MemView false 1 [blen (mv_bytes m)] true (mv_bytes m)).

(** [memoryview(a)] of an array. *)
Definition memoryview_of_array (a : array) : memview :=
  MemView false (itemsize a) [blen (raw a) / itemsize a] true (raw a).

(** [len(x)]. *)
Definition py_len (v : pyval) : result Z :=
  match v with
  | PyBytes b | PyByteArray b => Return (blen b)
  | PyArray a => Return (blen (raw a) / itemsize a)
  | PyMemoryview m => memview_len m
  | PyNone | PyInt _ => Raise (TypeError "object has no len()")
  end.

(** Truth value of an object in a condition; a sized object is true when
    its length is not 0, and the test fails when taking the length does. *)
Definition truthy (v : pyval) : result bool :=
  match v with
  | PyNone => Return false
  | PyInt z => Return (negb (z =? 0))
  | PyBytes b | PyByteArray b => Return (negb (blen b =? 0))
  | PyArray a => Return (negb (blen (raw a) / itemsize a =? 0))
  | PyMemoryview m => n ← memview_len m; Return (negb (n =? 0))
  end.

(** The bytes an object exposes through the buffer protocol when asked
    for a simple (contiguous) buffer. *)
Definition buffer_of (v : pyval) : option (list byte) :=
  match v with
  | PyBytes b | PyByteArray b => Some b
  | PyMemoryview m =>
      if negb (mv_released m) && mv_c_contiguous m then Some (mv_bytes m) else None
  | PyArray a => Some (raw a)
  | PyNone | PyInt _ => None
  end.

(** [ffi.memmove(dest, src, n)] seen from [dest]: a pointer is modelled by
    the memory that starts at it, so bytes of [dest] beyond the region the
    callee owns are the neighbouring memory. *)
Definition memmove (dest src : list byte) (n : Z) : list byte :=
  let moved := firstn (Z.to_nat n) src in
  moved ++ skipn (List.length moved) dest.

(** [bytearray(n)]. *)
Definition bytearray (n : Z) : result (list byte) :=
  if n <? 0 then Raise (ValueError "negative count" [])
  else Return (repeat x00 (Z.to_nat n)).

(** cffi converting a Python int to an unsigned C integer of [bits] bits. *)
Definition cffi_unsigned (bits : Z) (z : Z) : result Z :=
  if (0 <=? z) && (z <? 2 ^ bits) then Return z
  else Raise (OverflowError "integer does not fit the C type").

Definition string_of_Z (z : Z) : string :=
  NilZero.string_of_int (Z.to_int z).

(* ===================================================================== *)
(** ** The native library and the application's generators                *)
(* ===================================================================== *)

Definition MA_SUCCESS : Z := 0.

(** The part of [_miniaudio.lib] (and of [os.path]) the modelled code
    calls.  A native call that updates the struct it is handed returns
    the struct afterwards; [ma_decoder_read_pcm_frames] also returns the
    bytes it wrote at the buffer pointer.  [lib.ma_device_uninit] returns
    nothing and the caller drops the struct: the model records the call
    (see [world]). *)
Class NativeLib : Type := {
  py_float : Type;
  float_truediv : Z -> Z -> py_float;
  ma_get_format_name : ma_format -> string;
  os_path_expanduser : string -> string;
  os_path_isfile : string -> bool;
  ma_decode_file : string -> ma_format -> Z -> Z -> Z * Z * list byte;
  ma_decoder : Type;
  ma_decoder_init_file : string -> ma_format -> Z -> Z -> Z * ma_decoder;
  ma_decoder_init_memory : list byte -> ma_format -> Z -> Z -> Z * ma_decoder;
  ma_decoder_read_pcm_frames : ma_decoder -> Z -> Z * list byte * ma_decoder;
  ma_decoder_uninit : ma_decoder -> ma_decoder;
  ma_device : Type;
  pUserData : ma_device -> option (list byte);
  ma_device_start : ma_device -> Z * ma_device;
  ma_device_stop : ma_device -> Z * ma_device
}.

(** What resuming a generator with [send] produces. *)
Inductive resumed (G : Type) : Type :=
| Yields (v : pyval) (g : G)
| Stops
| Raises (e : exn).

Arguments Yields {G} v g.
Arguments Stops {G}.
Arguments Raises {G} e.

(** The generator objects an application hands to a device: a state and
    the transition [send] performs on it. *)
Class Generators : Type := {
  generator : Type;
  gen_send : generator -> pyval -> resumed generator
}.

(* ===================================================================== *)
(** ** Sample format model                                                *)
(* ===================================================================== *)

(** Item sizes of the integer type codes tried by [_create_int_array]
    (LP64 platform). *)
Definition int_typecodes : list (ascii * Z) :=
  [("b"%char, 1); ("h"%char, 2); ("i"%char, 4); ("l"%char, 8); ("q"%char, 8)].

Fixpoint _create_int_array_loop (codes : list (ascii * Z)) (size : Z) : result array :=
  match codes with
  | [] => Raise (ValueError "cannot create array" [])
  | (tc, sz) :: rest =>
      if sz =? size then Return (Array tc sz [])
      else _create_int_array_loop rest size
  end.

Definition _create_int_array (size : Z) : result array :=
  _create_int_array_loop int_typecodes size.

Definition _decode_ma_format (ma_output_format : ma_format) : result (Z * array) :=
  if ma_format_eqb ma_output_format ma_format_f32 then
    Return (4, Array "f"%char 4 [])
  else if ma_format_eqb ma_output_format ma_format_u8 then
    a ← _create_int_array 1; Return (1, a)
  else if ma_format_eqb ma_output_format ma_format_s16 then
    a ← _create_int_array 2; Return (2, a)
  else if ma_format_eqb ma_output_format ma_format_s32 then
    a ← _create_int_array 4; Return (4, a)
  else
    Raise (ValueError "unsupported miniaudio sample format" [ArgFormat ma_output_format]).

Definition _ma_format_from_width (sample_width : Z) (is_float : bool) : result ma_format :=
  if is_float then Return ma_format_f32
  else if sample_width =? 1 then Return ma_format_u8
  else if sample_width =? 2 then Return ma_format_s16
  else if sample_width =? 4 then Return ma_format_s32
  else Raise (ValueError "unsupported sample_width" [ArgInt sample_width]).

(** [a.frombytes(buffer)]. *)
Definition frombytes (a : array) (buffer : list byte) : result array :=
  if blen buffer mod itemsize a =? 0 then
    Return (Array (typecode a) (itemsize a) (raw a ++ buffer))
  else Raise (ValueError "bytes length not a multiple of item size" []).

Definition array_len (a : array) : Z := blen (raw a) / itemsize a.

(* ===================================================================== *)
(** ** DecodedSoundFile                                                    *)
(* ===================================================================== *)

Record DecodedSoundFile {lib : NativeLib} : Type := MkDecodedSoundFile {
  name : string;
  nchannels : Z;
  sample_rate : Z;
  sample_width : Z;
  sample_format : ma_format;
  sample_format_name : string;
  samples : array;
  num_frames : Z;
  duration : py_float
}.

(** [DecodedSoundFile.__init__]: [//] and [/] raise on a zero divisor. *)
Definition DecodedSoundFile_init {lib : NativeLib} (name : string) (nchannels sample_rate sample_width : Z)
    (sample_format : ma_format) (samples : array) : result DecodedSoundFile :=
  let sample_format_name := ma_get_format_name sample_format in
  if nchannels =? 0 then Raise ZeroDivisionError else
  let num_frames := array_len samples / nchannels in
  if sample_rate =? 0 then Raise ZeroDivisionError else
  let duration := float_truediv num_frames sample_rate in
  Return (MkDecodedSoundFile _ name nchannels sample_rate sample_width sample_format
            sample_format_name samples num_frames duration).

(* ===================================================================== *)
(** ** Format dispatcher                                                   *)
(* ===================================================================== *)

Record SoundFileInfo {lib : NativeLib} : Type := MkSoundFileInfo {
  info_name : string;
  info_file_format : string;
  info_nchannels : Z;
  info_sample_rate : Z;
  info_sample_width : Z;
  info_sample_format : ma_format;
  info_sample_format_name : string;
  info_duration : py_float;
  info_num_frames : Z;
  info_max_frame_size : Z
}.

(** The per-codec entry points [get_file_info] and [read_file] hand the
    file name to.  Each is a sequence of native decoder calls. *)
Class Codecs {lib : NativeLib} : Type := {
  vorbis_get_file_info : string -> result SoundFileInfo;
  mp3_get_file_info : string -> result SoundFileInfo;
  flac_get_file_info : string -> result SoundFileInfo;
  wav_get_file_info : string -> result SoundFileInfo;
  vorbis_read_file : string -> result DecodedSoundFile;
  mp3_read_file_s16 : string -> result DecodedSoundFile;
  flac_read_file_s16 : string -> result DecodedSoundFile;
  wav_read_file_s16 : string -> result DecodedSoundFile
}.

(** [s.rfind(c)] for a one-character [c]: the highest index, or -1. *)
Fixpoint rfind_from (c : ascii) (s : string) (i found : Z) : Z :=
  match s with
  | EmptyString => found
  | String a rest => rfind_from c rest (i + 1) (if Ascii.eqb a c then i else found)
  end.

Definition rfind (s : string) (c : ascii) : Z := rfind_from c s 0 (-1).

(** [p[:i]] and [p[i:]] for [0 <= i]. *)
Definition slice_to (p : string) (i : Z) : string :=
  String.substring 0 (Z.to_nat i) p.

Definition slice_from (p : string) (i : Z) : string :=
  String.substring (Z.to_nat i) (String.length p - Z.to_nat i) p.

(** The [while filenameIndex < dotIndex] loop of [genericpath._splitext];
    [todo] counts the iterations left, [dotIndex - filenameIndex]. *)
Fixpoint _splitext_loop (p : string) (dotIndex filenameIndex : Z) (todo : nat)
  : option (string * string) :=
  match todo with
  | O => None
  | S todo' =>
      if negb (String.eqb (String.substring (Z.to_nat filenameIndex) 1 p) ".") then
        Some (slice_to p dotIndex, slice_from p dotIndex)
      else _splitext_loop p dotIndex (filenameIndex + 1) todo'
  end.

(** [os.path.splitext] of [posixpath]: separator [/], no alternative
    separator, extension separator [.]. *)
Definition splitext (p : string) : string * string :=
  let sepIndex := rfind p "/" in
  let dotIndex := rfind p "." in
  if dotIndex >? sepIndex then
    let filenameIndex := sepIndex + 1 in
    match _splitext_loop p dotIndex filenameIndex (Z.to_nat (dotIndex - filenameIndex)) with
    | Some r => r
    | None => (p, EmptyString)
    end
  else (p, EmptyString).

Definition lower_char (c : ascii) : ascii :=
  let n := N_of_ascii c in
  if ((65 <=? n) && (n <=? 90))%N then ascii_of_N (n + 32) else c.

(** [str.lower] on the file names considered here (one-byte characters). *)
Fixpoint lower (s : string) : string :=
  match s with
  | EmptyString => EmptyString
  | String c rest => String (lower_char c) (lower rest)
  end.

(** [x in (a, b, ...)] on strings. *)
Definition str_in (x : string) (xs : list string) : bool :=
  existsb (String.eqb x) xs.

Definition get_file_info {lib : NativeLib} {codecs : Codecs} (filename : string) : result SoundFileInfo :=
  let ext := lower (snd (splitext filename)) in
  if str_in ext [".ogg"; ".vorbis"]%string then vorbis_get_file_info filename
  else if String.eqb ext ".mp3" then mp3_get_file_info filename
  else if String.eqb ext ".flac" then flac_get_file_info filename
  else if String.eqb ext ".wav" then wav_get_file_info filename
  else Raise (DecodeError "unsupported file format" []).

Definition read_file {lib : NativeLib} {codecs : Codecs} (filename : string) : result DecodedSoundFile :=
  let ext := lower (snd (splitext filename)) in
  if str_in ext [".ogg"; ".vorbis"]%string then vorbis_read_file filename
  else if String.eqb ext ".mp3" then mp3_read_file_s16 filename
  else if String.eqb ext ".flac" then flac_read_file_s16 filename
  else if String.eqb ext ".wav" then wav_read_file_s16 filename
  else Raise (DecodeError "unsupported file format" []).

(* ===================================================================== *)
(** ** Streaming decode engine                                             *)
(* ===================================================================== *)

(** The local variables of a suspended [_samples_generator]. *)
Record samples_frame {lib : NativeLib} : Type := MkFrame {
  frames_to_read : Z;
  sg_nchannels : Z;
  sg_sample_width : Z;
  samples_proto : array;
  allocated_buffer_frames : Z;
  decodebuffer : list byte;
  decoder : ma_decoder
}.

(** A [_samples_generator] object: created and not yet run, suspended at
    one of its two [yield]s (both resume at the assignment of
    [want_frames]), or finished, in which case [SgFinished] keeps the
    decoder struct as the generator left it. *)
Inductive samples_generator {lib : NativeLib} : Type :=
| SgCreated (frames_to_read nchannels : Z) (ma_output_format : ma_format) (decoder : ma_decoder)
| SgSuspended (f : samples_frame)
| SgFinished (decoder : ma_decoder).

(** What [g.send(v)] gives the consumer of a stream. *)
Inductive pulled : Type :=
| Chunk (samples : array)
| EndOfStream
| Failed (e : exn).

Definition capacity_message (want_frames allocated : Z) : string :=
  "wanted to read more frames than storage was allocated for (" +:+
  string_of_Z want_frames +:+ " vs " +:+ string_of_Z allocated +:+ ")".

(** [ffi.new("int8_t[]", n)]. *)
Definition ffi_new_int8 (n : Z) : result (list byte) :=
  if n <? 0 then Raise (ValueError "negative array length" [])
  else Return (repeat x00 (Z.to_nat n)).

(** [x or d] for an int default. *)
Definition py_or (x : pyval) (d : Z) : result pyval :=
  t ← truthy x; Return (if t : bool then x else PyInt d).

(** From the resumption of a [yield] to the next one (or to the end): one
    turn of the [while True] loop, with the [finally] clause run on every
    exit. *)
Definition sg_resume {lib : NativeLib} (f : samples_frame) (sent : pyval)
  : pulled * samples_generator :=
  match py_or sent (frames_to_read f) with
  | Raise e => (Failed e, SgFinished (ma_decoder_uninit (decoder f)))
  | Return (PyInt want_frames) =>
      if want_frames >? allocated_buffer_frames f then
        (Failed (MiniaudioError (capacity_message want_frames (allocated_buffer_frames f)) []),
         SgFinished (ma_decoder_uninit (decoder f)))
      else
        match cffi_unsigned 64 want_frames with
        | Raise e => (Failed e, SgFinished (ma_decoder_uninit (decoder f)))
        | Return n =>
            let '(num_frames, written, decoder') := ma_decoder_read_pcm_frames (decoder f) n in
            if num_frames <=? 0 then (EndOfStream, SgFinished (ma_decoder_uninit decoder'))
            else
              let decodebuffer' := memmove (decodebuffer f) written (blen written) in
              let buffer :=
                firstn (Z.to_nat (num_frames * sg_sample_width f * sg_nchannels f)) decodebuffer' in
              match frombytes (Array (typecode (samples_proto f)) (itemsize (samples_proto f)) [])
                      buffer with
              | Raise e => (Failed e, SgFinished (ma_decoder_uninit decoder'))
              | Return samples =>
                  (Chunk samples,
                   SgSuspended (MkFrame _ (frames_to_read f) (sg_nchannels f) (sg_sample_width f)
                                  (samples_proto f) (allocated_buffer_frames f)
                                  decodebuffer' decoder'))
              end
        end
  | Return _ =>
      (Failed (TypeError "'>' not supported between these operands"),
       SgFinished (ma_decoder_uninit (decoder f)))
  end.

(** [g.send(sent)] on a [_samples_generator]; [next(g)] is [g.send(None)]. *)
Definition sg_send {lib : NativeLib} (g : samples_generator) (sent : pyval)
  : pulled * samples_generator :=
  match g with
  | SgCreated frames_to_read nchannels ma_output_format decoder =>
      match sent with
      | PyNone =>
          match _decode_ma_format ma_output_format with
          | Raise e => (Failed e, SgFinished decoder)
          | Return (sample_width, samples_proto) =>
              let allocated_buffer_frames := Z.max frames_to_read 16384 in
              match ffi_new_int8 (allocated_buffer_frames * nchannels * sample_width) with
              | Raise e => (Failed e, SgFinished (ma_decoder_uninit decoder))
              | Return decodebuffer =>
                  (Chunk samples_proto,
                   SgSuspended (MkFrame _ frames_to_read nchannels sample_width samples_proto
                                  allocated_buffer_frames decodebuffer decoder))
              end
          end
      | _ => (Failed (TypeError "can't send non-None value to a just-started generator"), g)
      end
  | SgSuspended f => sg_resume f sent
  | SgFinished decoder => (EndOfStream, g)
  end.

Definition _get_filename_bytes {lib : NativeLib} (filename : string) : result string :=
  let filename2 := os_path_expanduser filename in
  if negb (os_path_isfile filename2) then Raise (FileNotFoundError filename)
  else Return filename2.

(** [decode_file]: [ma_decode_file] reports a status, the number of frames
    and the memory it allocated for them. *)
Definition decode_file {lib : NativeLib} (filename : string) (ma_output_format : ma_format)
    (nchannels sample_rate : Z) : result DecodedSoundFile :=
  '(sample_width, samples) ← _decode_ma_format ma_output_format;
  filenamebytes ← _get_filename_bytes filename;
  _ ← cffi_unsigned 32 nchannels;
  _ ← cffi_unsigned 32 sample_rate;
  let '(result, frames, data) :=
    ma_decode_file filenamebytes ma_output_format nchannels sample_rate in
  if negb (result =? MA_SUCCESS) then Raise (DecodeError "failed to decode file" [ArgInt result])
  else
    let buffer := firstn (Z.to_nat (frames * nchannels * sample_width)) data in
    samples ← frombytes samples buffer;
    DecodedSoundFile_init filename nchannels sample_rate sample_width ma_output_format samples.

(** The tail shared by [stream_file] and [stream_memory]: create the
    generator, run it to its first [yield], check the dummy. *)
Definition start_samples_generator {lib : NativeLib} (g : samples_generator)
  : result samples_generator :=
  match sg_send g PyNone with
  | (Chunk dummy, g') =>
      if array_len dummy =? 0 then Return g' else Raise AssertionError
  | (EndOfStream, _) => Raise StopIteration
  | (Failed e, _) => Raise e
  end.

Definition stream_file {lib : NativeLib} (filename : string) (ma_output_format : ma_format)
    (nchannels sample_rate frames_to_read : Z) : result samples_generator :=
  filenamebytes ← _get_filename_bytes filename;
  _ ← cffi_unsigned 32 nchannels;
  _ ← cffi_unsigned 32 sample_rate;
  let '(result, decoder) :=
    ma_decoder_init_file filenamebytes ma_output_format nchannels sample_rate in
  if negb (result =? MA_SUCCESS) then Raise (DecodeError "failed to decode file" [ArgInt result])
  else start_samples_generator (SgCreated frames_to_read nchannels ma_output_format decoder).

Definition stream_memory {lib : NativeLib} (data : list byte) (ma_output_format : ma_format)
    (nchannels sample_rate frames_to_read : Z) : result samples_generator :=
  _ ← cffi_unsigned 32 nchannels;
  _ ← cffi_unsigned 32 sample_rate;
  let '(result, decoder) :=
    ma_decoder_init_memory data ma_output_format nchannels sample_rate in
  if negb (result =? MA_SUCCESS) then Raise (DecodeError "failed to decode memory" [ArgInt result])
  else start_samples_generator (SgCreated frames_to_read nchannels ma_output_format decoder).

(* ===================================================================== *)
(** ** Devices and the callback bridge                                     *)
(* ===================================================================== *)

Inductive device_class : Type :=
| CaptureDevice
| PlaybackDevice
| DuplexStream.

(** The attributes of a device object the modelled methods read or write:
    [self.sample_width], [self.nchannels] (capture and playback devices),
    [self.capture_channels] and [self.playback_channels] (duplex streams),
    [self.callback_generator] and [self._device]. *)
Record device {lib : NativeLib} {gens : Generators} : Type := MkDevice {
  dev_class : device_class;
  self_sample_width : Z;
  self_nchannels : Z;
  capture_channels : Z;
  playback_channels : Z;
  callback_generator : option generator;
  _device : option ma_device
}.

Definition set_callback_generator {lib : NativeLib} {gens : Generators}
    (self : device) (g : option generator) : device :=
  MkDevice _ _ (dev_class self) (self_sample_width self) (self_nchannels self)
    (capture_channels self) (playback_channels self) g (_device self).

Definition set__device {lib : NativeLib} {gens : Generators}
    (self : device) (d : option ma_device) : device :=
  MkDevice _ _ (dev_class self) (self_sample_width self) (self_nchannels self)
    (capture_channels self) (playback_channels self) (callback_generator self) d.

Definition none_pointer_error : exn :=
  TypeError "initializer for ctype 'ma_device *' must be a cdata pointer, not NoneType".

(** [AbstractDevice.start]; the argument is a generator object or some
    other object, which [inspect.isgenerator] rejects. *)
Definition start {lib : NativeLib} {gens : Generators} (self : device) (cb : generator + pyval)
  : result unit * device :=
  match callback_generator self with
  | Some _ => (Raise (MiniaudioError "can't start an already started device" []), self)
  | None =>
      match cb with
      | inr _ => (Raise (TypeError "callback must be a generator"), self)
      | inl g =>
          let self := set_callback_generator self (Some g) in
          match _device self with
          | None => (Raise none_pointer_error, self)
          | Some d =>
              let '(result, d') := ma_device_start d in
              let self := set__device self (Some d') in
              if negb (result =? MA_SUCCESS) then
                (Raise (MiniaudioError "failed to start audio device" [ArgInt result]), self)
              else (Return tt, self)
          end
      end
  end.

(** [AbstractDevice.stop]. *)
Definition stop {lib : NativeLib} {gens : Generators} (self : device) : result unit * device :=
  let self := set_callback_generator self None in
  match _device self with
  | None => (Raise none_pointer_error, self)
  | Some d =>
      let '(result, d') := ma_device_stop d in
      let self := set__device self (Some d') in
      if negb (result =? MA_SUCCESS) then
        (Raise (MiniaudioError "failed to stop audio device" [ArgInt result]), self)
      else (Return tt, self)
  end.

(** The interpreter state the bridge works on: the device objects by
    identity ([id(self)]), the module-level dict [_callback_data] from
    identities to device objects, and the native device structs handed to
    [lib.ma_device_uninit] so far, oldest first. *)
Record world {lib : NativeLib} {gens : Generators} : Type := MkWorld {
  objects : gmap Z device;
  _callback_data : gmap Z Z;
  uninitialized : list ma_device
}.

(** [AbstractDevice.close] on the object of identity [self]. *)
Definition close {lib : NativeLib} {gens : Generators} (w : world) (self : Z) : result unit * world :=
  match objects w !! self with
  | None => (Raise (KeyError self), w)
  | Some obj =>
      let obj := set_callback_generator obj None in
      let '(obj, released) :=
        match _device obj with
        | Some d => (set__device obj None, uninitialized w ++ [d])
        | None => (obj, uninitialized w)
        end in
      let registry :=
        match _callback_data w !! self with
        | Some _ => delete self (_callback_data w)
        | None => _callback_data w
        end in
      (Return tt, MkWorld _ _ (<[self := obj]> (objects w)) registry released)
  end.

Definition _bytes_from_generator_samples (samples : pyval) : result pyval :=
  match samples with
  | PyArray a => m ← memview_cast_B (memoryview_of_array a); Return (PyMemoryview m)
  | PyMemoryview m =>
      if mv_released m then Raise released_error
      else if negb (mv_itemsize m =? 1) then
        m' ← memview_cast_B m; Return (PyMemoryview m')
      else Return samples
  | _ => Return samples
  end.

Definition not_a_buffer_error : exn :=
  TypeError "a bytes-like object is required".

(** The source of an [ffi.memmove]: the bytes of a contiguous buffer, or
    the error for an object that gives none. *)
Definition memmove_source (v : pyval) : result (list byte) :=
  match buffer_of v with
  | Some b => Return b
  | None =>
      match v with
      | PyMemoryview m =>
          if mv_released m then Raise released_error
          else Raise (BufferError "memoryview: underlying buffer is not C-contiguous")
      | _ => Raise not_a_buffer_error
      end
  end.

(** [CaptureDevice.data_callback]: the result, the device afterwards and
    the memory at [output] afterwards. *)
Definition CaptureDevice_data_callback {lib : NativeLib} {gens : Generators}
    (self : device) (output input : list byte) (framecount : Z)
  : result unit * device * list byte :=
  match callback_generator self with
  | None => (Return tt, self, output)
  | Some g =>
      let buffer_size := self_sample_width self * self_nchannels self * framecount in
      match bytearray buffer_size with
      | Raise e => (Raise e, self, output)
      | Return data =>
          let data := memmove data input buffer_size in
          match gen_send g (PyByteArray data) with
          | Stops => (Return tt, set_callback_generator self None, output)
          | Raises e => (Raise e, set_callback_generator self None, output)
          | Yields _ g' => (Return tt, set_callback_generator self (Some g'), output)
          end
      end
  end.

Definition too_many_frames_error : exn :=
  MiniaudioError "number of frames from callback exceeds maximum" [].

(** [PlaybackDevice.data_callback]. *)
Definition PlaybackDevice_data_callback {lib : NativeLib} {gens : Generators}
    (self : device) (output input : list byte) (framecount : Z)
  : result unit * device * list byte :=
  match callback_generator self with
  | None => (Return tt, self, output)
  | Some g =>
      match gen_send g (PyInt framecount) with
      | Stops => (Return tt, set_callback_generator self None, output)
      | Raises e => (Raise e, set_callback_generator self None, output)
      | Yields samples g' =>
          let self := set_callback_generator self (Some g') in
          match _bytes_from_generator_samples samples with
          | Raise e => (Raise e, self, output)
          | Return samples_bytes =>
              match truthy samples_bytes with
              | Raise e => (Raise e, self, output)
              | Return false => (Return tt, self, output)
              | Return true =>
                  match py_len samples_bytes with
                  | Raise e => (Raise e, self, output)
                  | Return n =>
                      if n >? framecount * self_sample_width self * self_nchannels self then
                        (Raise too_many_frames_error, set_callback_generator self None, output)
                      else
                        match memmove_source samples_bytes with
                        | Raise e => (Raise e, self, output)
                        | Return src => (Return tt, self, memmove output src n)
                        end
                  end
              end
          end
      end
  end.

(** [DuplexStream.data_callback]. *)
Definition DuplexStream_data_callback {lib : NativeLib} {gens : Generators}
    (self : device) (output input : list byte) (framecount : Z)
  : result unit * device * list byte :=
  let buffer_size := self_sample_width self * capture_channels self * framecount in
  match bytearray buffer_size with
  | Raise e => (Raise e, self, output)
  | Return in_data =>
      let in_data := memmove in_data input buffer_size in
      match callback_generator self with
      | None => (Return tt, self, output)
      | Some g =>
          match gen_send g (PyByteArray in_data) with
          | Stops => (Return tt, set_callback_generator self None, output)
          | Raises e => (Raise e, set_callback_generator self None, output)
          | Yields out_data g' =>
              let self := set_callback_generator self (Some g') in
              match truthy out_data with
              | Raise e => (Raise e, self, output)
              | Return false => (Return tt, self, output)
              | Return true =>
                  match _bytes_from_generator_samples out_data with
                  | Raise e => (Raise e, self, output)
                  | Return samples_bytes =>
                      match py_len samples_bytes with
                      | Raise e => (Raise e, self, output)
                      | Return n =>
                          match memmove_source samples_bytes with
                          | Raise e => (Raise e, self, output)
                          | Return src => (Return tt, self, memmove output src n)
                          end
                      end
                  end
              end
          end
      end
  end.

(** [callback_device.data_callback(...)]: the method of the object's class. *)
Definition data_callback {lib : NativeLib} {gens : Generators}
    (self : device) (output input : list byte) (framecount : Z)
  : result unit * device * list byte :=
  match dev_class self with
  | CaptureDevice => CaptureDevice_data_callback self output input framecount
  | PlaybackDevice => PlaybackDevice_data_callback self output input framecount
  | DuplexStream => DuplexStream_data_callback self output input framecount
  end.

(** [struct.unpack('q', b)[0]]: eight bytes, little-endian, two's
    complement. *)
Definition unpack_q (b : list byte) : Z :=
  let u := fold_right (fun x acc => Z.of_N (Byte.to_N x) + 256 * acc) 0 (firstn 8 b) in
  if u <? 2 ^ 63 then u else u - 2 ^ 64.

(** [internal_data_callback], the function the native library calls with
    its device struct, the output and input pointers and a frame count. *)
Definition internal_data_callback {lib : NativeLib} {gens : Generators}
    (w : world) (device : ma_device) (output input : list byte) (framecount : Z)
  : result unit * world * list byte :=
  if (framecount =? 0) || negb (bool_decide (is_Some (pUserData device))) then
    (Return tt, w, output)
  else
    let userdata_id := unpack_q (default [] (pUserData device)) in
    match _callback_data w !! userdata_id with
    | None => (Raise (KeyError userdata_id), w, output)
    | Some ref =>
        match objects w !! ref with
        | None => (Raise (KeyError ref), w, output)
        | Some callback_device =>
            let '(r, callback_device', output') :=
              data_callback callback_device output input framecount in
            (r, MkWorld _ _ (<[ref := callback_device']> (objects w))
                  (_callback_data w) (uninitialized w), output')
        end
    end.

(* ===================================================================== *)
(** ** Streams and pulls                                                   *)
(* ===================================================================== *)

(** The generators a consumer can hold of a stream configured with the
    default chunk size [n]: what [stream_file] or [stream_memory]
    returned, and what such a generator has become after pulls that
    produced chunks. *)
Inductive stream_state {lib : NativeLib} (n : Z) : samples_generator -> Prop :=
| stream_state_file filename fmt nchannels rate g :
    stream_file filename fmt nchannels rate n = Return g ->
    stream_state n g
| stream_state_memory data fmt nchannels rate g :
    stream_memory data fmt nchannels rate n = Return g ->
    stream_state n g
| stream_state_pull g sent samples g' :
    stream_state n g ->
    sg_send g sent = (Chunk samples, g') ->
    stream_state n g'.

(** The pull failed with the error raised for a request beyond the
    allocated storage. *)
Definition capacity_exceeded (p : pulled) : Prop :=
  exists want_frames allocated,
    p = Failed (MiniaudioError (capacity_message want_frames allocated) []).

(** The decoder struct a generator holds (or held when it finished). *)
Definition decoder_of {lib : NativeLib} (g : samples_generator) : ma_decoder :=
  match g with
  | SgCreated _ _ _ d => d
  | SgSuspended f => decoder f
  | SgFinished d => d
  end.

(* ===================================================================== *)
(** ** A simulated native library and scripted generators                  *)
(* ===================================================================== *)

(** A decoder of the simulation: the PCM bytes not yet read, the size of
    one frame in bytes and whether [ma_decoder_uninit] has been called. *)
Record sim_decoder : Type := SimDecoder {
  sim_pcm : list byte;
  sim_frame_size : Z;
  sim_uninit : bool
}.

Definition sim_width (f : ma_format) : Z :=
  match f with
  | ma_format_u8 => 1
  | ma_format_s16 => 2
  | ma_format_s24 => 3
  | ma_format_s32 | ma_format_f32 => 4
  | ma_format_unknown => 0
  end.

(** Reads at most [n] whole frames from the front of the PCM data. *)
Definition sim_read (d : sim_decoder) (n : Z) : Z * list byte * sim_decoder :=
  let available := blen (sim_pcm d) / sim_frame_size d in
  let frames := Z.min n available in
  let count := Z.to_nat (frames * sim_frame_size d) in
  (frames, firstn count (sim_pcm d),
   SimDecoder (skipn count (sim_pcm d)) (sim_frame_size d) (sim_uninit d)).

(** A device struct of the simulation. *)
Record sim_device : Type := SimDevice {
  sim_user_data : option (list byte);
  sim_started : bool
}.

(** Every source decodes to the same three frames of [0x01] bytes. *)
Definition sim_open (fmt : ma_format) (nchannels : Z) : Z * sim_decoder :=
  let size := nchannels * sim_width fmt in
  (MA_SUCCESS, SimDecoder (repeat x01 (Z.to_nat (3 * size))) size false).

Definition sim_lib : NativeLib := {|
  py_float := Z * Z;
  float_truediv := fun a b => (a, b);
  ma_get_format_name := fun f => string_of_Z (sim_width f);
  os_path_expanduser := fun p => p;
  os_path_isfile := fun _ => true;
  ma_decode_file := fun _ fmt nchannels _ =>
    (MA_SUCCESS, 3, repeat x01 (Z.to_nat (3 * (nchannels * sim_width fmt))));
  ma_decoder := sim_decoder;
  ma_decoder_init_file := fun _ fmt nchannels _ => sim_open fmt nchannels;
  ma_decoder_init_memory := fun _ fmt nchannels _ => sim_open fmt nchannels;
  ma_decoder_read_pcm_frames := sim_read;
  ma_decoder_uninit := fun d => SimDecoder (sim_pcm d) (sim_frame_size d) true;
  ma_device := sim_device;
  pUserData := sim_user_data;
  ma_device_start := fun d => (MA_SUCCESS, SimDevice (sim_user_data d) true);
  ma_device_stop := fun d => (MA_SUCCESS, SimDevice (sim_user_data d) false)
|}.

(** A scripted generator: the values it yields, in order, whatever it is
    sent; it stops when the script is exhausted. *)
Definition scripted : Generators := {|
  generator := list pyval;
  gen_send := fun g _ =>
    match g with
    | [] => Stops
    | v :: rest => Yields v rest
    end
|}.

(** A generator that plays a stream: it forwards what it is sent to the
    [_samples_generator] it wraps. *)
Definition streaming {lib : NativeLib} : Generators := {|
  generator := samples_generator;
  gen_send := fun g sent =>
    match sg_send g sent with
    | (Chunk samples, g') => Yields (PyArray samples) g'
    | (EndOfStream, _) => Stops
    | (Failed e, _) => Raises e
    end
|}.

(** Codec entry points of the simulation: each one reports which it is. *)
Definition sim_codecs : @Codecs sim_lib := {|
  vorbis_get_file_info := fun _ => Raise (ApplicationError 1);
  mp3_get_file_info := fun _ => Raise (ApplicationError 2);
  flac_get_file_info := fun _ => Raise (ApplicationError 3);
  wav_get_file_info := fun _ => Raise (ApplicationError 4);
  vorbis_read_file := fun _ => Raise (ApplicationError 5);
  mp3_read_file_s16 := fun _ => Raise (ApplicationError 6);
  flac_read_file_s16 := fun _ => Raise (ApplicationError 7);
  wav_read_file_s16 := fun _ => Raise (ApplicationError 8)
|}.

(** Five 16-bit samples. *)
Definition five_samples : array := Array "h" 2 (repeat x00 10).

(** Devices of the simulation, one of each class, for 16-bit stereo, each
    bound to a scripted generator that yields eight bytes once. *)
Definition eight_bytes : pyval := PyBytes (repeat x01 8).

Definition sim_native_device : sim_device := SimDevice (Some (repeat x00 8)) true.

Definition sim_playback : @device sim_lib scripted :=
  MkDevice sim_lib scripted PlaybackDevice 2 2 0 0 (Some [eight_bytes]) (Some sim_native_device).

Definition sim_capture : @device sim_lib scripted :=
  MkDevice sim_lib scripted CaptureDevice 2 2 0 0 (Some [eight_bytes]) (Some sim_native_device).

Definition sim_duplex : @device sim_lib scripted :=
  MkDevice sim_lib scripted DuplexStream 2 0 2 2 (Some [eight_bytes]) (Some sim_native_device).

(** Memory at the output pointer for one frame of 16-bit stereo: the four
    bytes of the hardware buffer, then four bytes that belong to someone
    else. *)
Definition one_frame_output : list byte := repeat x00 4 ++ repeat xaa 4.

(** A world with the playback device registered under identity 0. *)
Definition sim_world : @world sim_lib scripted :=
  MkWorld sim_lib scripted {[ 0 := sim_playback ]} {[ 0 := 0 ]} [].

(* ===================================================================== *)
(** ** The identity a device hands to the native library                   *)
(* ===================================================================== *)

Definition byte_of_Z (z : Z) : byte := default x00 (Byte.of_N (Z.to_N z)).

(** The [n] low bytes of [u], least significant first. *)
Fixpoint le_bytes (n : nat) (u : Z) : list byte :=
  match n with
  | O => []
  | S n' => byte_of_Z (u mod 256) :: le_bytes n' (u / 256)
  end.

(** [struct.pack('q', z)], as the device constructors apply it to
    [id(self)]; [None] stands for [struct.error] (argument out of range). *)
Definition pack_q (z : Z) : option (list byte) :=
  if (- 2 ^ 63 <=? z) && (z <? 2 ^ 63) then Some (le_bytes 8 (z mod 2 ^ 64))
  else None.

(** [ffi.new("char[]", b)]: the bytes followed by a NUL. *)
Definition ffi_new_char_array (b : list byte) : list byte := b ++ [x00].

(* ===================================================================== *)
(** ** WavFileReadStream                                                   *)
(* ===================================================================== *)

Definition sys_maxsize : Z := 2 ^ 63 - 1.

(** The attributes [WavFileReadStream.read] works on.  [sample_gen] is
    [None] once the generator object has finished ([next] on it raises
    [StopIteration]); a generator object is always true in a condition. *)
Record WavFileReadStream {gens : Generators} : Type := MkWavFileReadStream {
  sample_gen : option generator;
  buffered : list byte;
  bytes_done : Z;
  max_bytes : Z
}.

(** [b[:i]] and [b[i:]] on bytes, for any int [i]. *)
Definition bytes_upto (b : list byte) (i : Z) : list byte :=
  if i <? 0 then firstn (Z.to_nat (blen b + i)) b else firstn (Z.to_nat i) b.

Definition bytes_after (b : list byte) (i : Z) : list byte :=
  if i <? 0 then skipn (Z.to_nat (blen b + i)) b else skipn (Z.to_nat i) b.

(** The [while len(self.buffered) < amount] loop of [read]; [fuel] bounds
    the number of turns and [None] means it was not enough.  The result is
    how the loop ended (normally or with an exception), the generator
    object and the buffer afterwards, and whether [StopIteration] was
    caught. *)
Fixpoint read_loop {gens : Generators} (fuel : nat) (g : option generator)
    (buffered : list byte) (amount : Z)
  : option (result unit * option generator * list byte * bool) :=
  if blen buffered <? amount then
    match fuel with
    | O => None
    | S fuel' =>
        match g with
        | None => Some (Return tt, None, buffered, true)
        | Some g =>
            match gen_send g PyNone with
            | Stops => Some (Return tt, None, buffered, true)
            | Raises e => Some (Raise e, None, buffered, false)
            | Yields produced g' =>
                match _bytes_from_generator_samples produced with
                | Raise e => Some (Raise e, Some g', buffered, false)
                | Return view =>
                    match buffer_of view with
                    | None =>
                        Some (Raise (TypeError "can't concat to bytes"), Some g', buffered, false)
                    | Some b => read_loop fuel' (Some g') (buffered ++ b) amount
                    end
                end
            end
        end
    end
  else Some (Return tt, g, buffered, false).

(** [WavFileReadStream.read(amount)]. *)
Definition read {gens : Generators} (fuel : nat) (self : WavFileReadStream) (amount : Z)
  : option (result (list byte) * WavFileReadStream) :=
  if bytes_done self >=? max_bytes self then Some (Return [], self)
  else
    match read_loop fuel (sample_gen self) (buffered self) amount with
    | None => None
    | Some (Raise e, g, buf, _) =>
        Some (Raise e, MkWavFileReadStream _ g buf (bytes_done self) (max_bytes self))
    | Some (Return _, g, buf, stopped) =>
        let done := if stopped then sys_maxsize else bytes_done self in
        let result := bytes_upto buf amount in
        Some (Return result,
              MkWavFileReadStream _ g (bytes_after buf amount) (done + blen result)
                (max_bytes self))
    end.

(** Every value the generator yields, now and later, is a bytes-like
    object that is not empty: [P] holds of the generator and is kept by
    every [next]. *)
Definition productive {gens : Generators} (P : generator -> Prop) : Prop :=
  forall g, P g ->
    match gen_send g PyNone with
    | Yields v g' =>
        P g' /\
        exists view b,
          _bytes_from_generator_samples v = Return view /\
          buffer_of view = Some b /\ b <> []
    | _ => True
    end.

(* ===================================================================== *)
(** ** File information of FLAC and WAV files                              *)
(* ===================================================================== *)

(** The fields of the [drflac] and [drwav] structs the code reads. *)
Record drflac : Type := MkDrflac {
  flac_channels : Z;
  flac_sampleRate : Z;
  flac_bitsPerSample : Z;
  flac_totalPCMFrameCount : Z;
  flac_maxBlockSize : Z
}.

Record drwav : Type := MkDrwav {
  wav_channels : Z;
  wav_sampleRate : Z;
  wav_bitsPerSample : Z;
  wav_totalPCMFrameCount : Z
}.

(** [lib.drflac_open_file] and [lib.drwav_open_file]; [None] is the null
    pointer. *)
Class DrLibs : Type := {
  drflac_open_file : string -> option drflac;
  drwav_open_file : string -> option drwav
}.

(** The calls that release a decoder, recorded in the order made. *)
Inductive release : Type :=
| drflac_close (flac : drflac)
| drwav_close (wav : drwav).

Module Info.

(** [flac_get_file_info]: the result and the release calls made. *)
Definition flac_get_file_info {lib : NativeLib} {dr : DrLibs} (filename : string)
  : result SoundFileInfo * list release :=
  match _get_filename_bytes filename with
  | Raise e => (Raise e, [])
  | Return filenamebytes =>
      match drflac_open_file filenamebytes with
      | None => (Raise (DecodeError "could not open/decode file" []), [])
      | Some flac =>
          (if flac_sampleRate flac =? 0 then Raise ZeroDivisionError
           else
             let duration := float_truediv (flac_totalPCMFrameCount flac) (flac_sampleRate flac) in
             let sample_width := flac_bitsPerSample flac / 8 in
             fmt ← _ma_format_from_width sample_width false;
             Return (MkSoundFileInfo _ filename "flac" (flac_channels flac) (flac_sampleRate flac)
                       sample_width fmt (ma_get_format_name fmt) duration
                       (flac_totalPCMFrameCount flac) (flac_maxBlockSize flac)),
           [drflac_close flac])
      end
  end.

(** [wav_get_file_info]: the result and the release calls made. *)
Definition wav_get_file_info {lib : NativeLib} {dr : DrLibs} (filename : string)
  : result SoundFileInfo * list release :=
  match _get_filename_bytes filename with
  | Raise e => (Raise e, [])
  | Return filenamebytes =>
      match drwav_open_file filenamebytes with
      | None => (Raise (DecodeError "could not open/decode file" []), [])
      | Some wav =>
          (if wav_sampleRate wav =? 0 then Raise ZeroDivisionError
           else
             let duration := float_truediv (wav_totalPCMFrameCount wav) (wav_sampleRate wav) in
             let sample_width := wav_bitsPerSample wav / 8 in
             fmt ← _ma_format_from_width sample_width false;
             Return (MkSoundFileInfo _ filename "wav" (wav_channels wav) (wav_sampleRate wav)
                       sample_width fmt (ma_get_format_name fmt) duration
                       (wav_totalPCMFrameCount wav) 0),
           [drwav_close wav])
      end
  end.

End Info.

(* ===================================================================== *)
(** ** Vorbis: whole-file read and the double-buffered stream              *)
(* ===================================================================== *)

(** The stb_vorbis entry points the code calls.  [stb_vorbis_channels] is
    [lib.stb_vorbis_get_info(vorbis).channels];
    [stb_vorbis_get_frame_short_interleaved] takes the handle, the channel
    count and the buffer capacity in shorts, and returns the number of
    samples per channel, the bytes written at the buffer pointer and the
    handle afterwards; [stb_vorbis_decode_filename] returns the frame
    count, the channels, the sample rate and the memory at [output[0]]. *)
Class StbVorbis : Type := {
  stb_vorbis : Type;
  stb_vorbis_open_filename : string -> option stb_vorbis;
  stb_vorbis_channels : stb_vorbis -> Z;
  stb_vorbis_get_frame_short_interleaved : stb_vorbis -> Z -> Z -> Z * list byte * stb_vorbis;
  stb_vorbis_close : stb_vorbis -> stb_vorbis;
  stb_vorbis_decode_filename : string -> Z * Z * Z * list byte
}.

Module Reader.

(** [vorbis_read_file]: the result and the memory blocks handed to
    [lib.free]. *)
Definition vorbis_read_file {lib : NativeLib} {stb : StbVorbis} (filename : string)
  : result DecodedSoundFile * list (list byte) :=
  match _get_filename_bytes filename with
  | Raise e => (Raise e, [])
  | Return filenamebytes =>
      let '(num_frames, channels, sample_rate, output) :=
        stb_vorbis_decode_filename filenamebytes in
      if num_frames <=? 0 then (Raise (DecodeError "cannot load/decode file" []), [])
      else
        (let buffer := firstn (Z.to_nat (num_frames * channels * 2)) output in
         samples ← _create_int_array 2;
         samples ← frombytes samples buffer;
         DecodedSoundFile_init filename channels sample_rate 2 ma_format_s16 samples,
         [output])
  end.

End Reader.

(** [ffi.new("short[]", n)]: [n] shorts, two bytes each. *)
Definition ffi_new_short (n : Z) : result (list byte) :=
  if n <? 0 then Raise (ValueError "negative array length" [])
  else Return (repeat x00 (Z.to_nat (2 * n))).

(** The local variables of a suspended [vorbis_stream_file]. *)
Record vorbis_frame {stb : StbVorbis} : Type := MkVorbisFrame {
  vorbis : stb_vorbis;
  info_channels : Z;
  decode_buffer1 : list byte;
  decode_buffer2 : list byte
}.

(** A [vorbis_stream_file] generator: created (nothing has run yet),
    suspended at its [yield], or finished; [VFinished] keeps the handle
    as the generator left it, if it had opened one. *)
Inductive vorbis_generator {stb : StbVorbis} : Type :=
| VCreated (filename : string)
| VSuspended (f : vorbis_frame)
| VFinished (handle : option stb_vorbis).

(** One turn of the [while True] loop: two reads into the two buffers,
    then the end of the stream or a chunk built from both; the [finally]
    clause closes the handle on every exit.  (A sample count the decoder
    reports is not negative.) *)
Definition vorbis_turn {stb : StbVorbis} (f : vorbis_frame) : pulled * vorbis_generator :=
  let channels := info_channels f in
  let '(num_samples1, written1, v1) :=
    stb_vorbis_get_frame_short_interleaved (vorbis f) channels (4096 * channels) in
  let buffer1 := memmove (decode_buffer1 f) written1 (blen written1) in
  let '(num_samples2, written2, v2) :=
    stb_vorbis_get_frame_short_interleaved v1 channels (4096 * channels) in
  let buffer2 := memmove (decode_buffer2 f) written2 (blen written2) in
  let finished := VFinished (Some (stb_vorbis_close v2)) in
  if num_samples1 + num_samples2 <=? 0 then (EndOfStream, finished)
  else
    let filled :=
      samples ← _create_int_array 2;
      samples ← frombytes samples (firstn (Z.to_nat (num_samples1 * 2 * channels)) buffer1);
      if num_samples2 >? 0 then
        frombytes samples (firstn (Z.to_nat (num_samples2 * 2 * channels)) buffer2)
      else Return samples in
    match filled with
    | Raise e => (Failed e, finished)
    | Return samples => (Chunk samples, VSuspended (MkVorbisFrame _ v2 channels buffer1 buffer2))
    end.

(** [g.send(sent)] on a [vorbis_stream_file] generator; the body runs
    from the first [next] on. *)
Definition vorbis_send {lib : NativeLib} {stb : StbVorbis} (g : vorbis_generator) (sent : pyval)
  : pulled * vorbis_generator :=
  match g with
  | VCreated filename =>
      match sent with
      | PyNone =>
          match _get_filename_bytes filename with
          | Raise e => (Failed e, VFinished None)
          | Return filenamebytes =>
              match stb_vorbis_open_filename filenamebytes with
              | None => (Failed (DecodeError "could not open/decode file" []), VFinished None)
              | Some v =>
                  let channels := stb_vorbis_channels v in
                  match ffi_new_short (4096 * channels) with
                  | Raise e => (Failed e, VFinished (Some (stb_vorbis_close v)))
                  | Return decode_buffer =>
                      vorbis_turn (MkVorbisFrame _ v channels decode_buffer decode_buffer)
                  end
              end
          end
      | _ => (Failed (TypeError "can't send non-None value to a just-started generator"), g)
      end
  | VSuspended f => vorbis_turn f
  | VFinished _ => (EndOfStream, g)
  end.

(** The simulated Vorbis decoder: a handle is the list of frames still to
    come (16-bit mono, one sample per frame given as its two bytes). *)
Definition sim_stb : StbVorbis := {|
  stb_vorbis := list (list byte);
  stb_vorbis_open_filename := fun _ => Some [[x01; x00]; [x02; x00]; [x03; x00]];
  stb_vorbis_channels := fun _ => 1;
  stb_vorbis_get_frame_short_interleaved := fun v _ _ =>
    match v with
    | [] => (0, [], [])
    | frame :: rest => (1, frame, rest)
    end;
  stb_vorbis_close := fun _ => [];
  stb_vorbis_decode_filename := fun _ => (3, 1, 44100, [x01; x00; x02; x00; x03; x00])
|}.

(** In the simulation every FLAC file is 24-bit stereo and every WAV file
    is 16-bit stereo, one second long at 44100 Hz. *)
Definition sim_dr : DrLibs := {|
  drflac_open_file := fun _ => Some (MkDrflac 2 44100 24 44100 4096);
  drwav_open_file := fun _ => Some (MkDrwav 2 44100 16 44100)
|}.

(** Devices of the simulation without a bound routine, and a world that
    holds a playback device under identity 0 and a capture device under
    identity 1. *)
Definition idle_playback : @device sim_lib scripted :=
  MkDevice sim_lib scripted PlaybackDevice 2 2 0 0 None (Some sim_native_device).

Definition four_bytes : pyval := PyArray (Array "h" 2 [x01; x02; x03; x04]).

Definition bound_playback : @device sim_lib scripted :=
  MkDevice sim_lib scripted PlaybackDevice 2 2 0 0 (Some [four_bytes]) (Some sim_native_device).

Definition two_device_world : @world sim_lib scripted :=
  MkWorld sim_lib scripted {[ 0 := bound_playback; 1 := sim_capture ]} {[ 0 := 0; 1 := 1 ]} [].

(** A WAV stream of the simulation: a 4-byte header already buffered and a
    generator with two chunks to come. *)
Definition sim_wav_stream : @WavFileReadStream scripted :=
  MkWavFileReadStream scripted (Some [four_bytes; eight_bytes]) [x52; x49; x46; x46] 0 sys_maxsize.

(** A generator that raises whenever it is resumed, and a capture device
    bound to it. *)
Definition faulty : Generators := {|
  generator := unit;
  gen_send := fun _ _ => Raises (ApplicationError 7)
|}.

Definition faulty_capture : @device sim_lib faulty :=
  MkDevice sim_lib faulty CaptureDevice 2 2 0 0 (Some tt) (Some sim_native_device).

(** The simulated library on a machine where no path is a file. *)
Definition no_files_lib : NativeLib := {|
  py_float := @py_float sim_lib;
  float_truediv := @float_truediv sim_lib;
  ma_get_format_name := @ma_get_format_name sim_lib;
  os_path_expanduser := @os_path_expanduser sim_lib;
  os_path_isfile := fun _ => false;
  ma_decode_file := @ma_decode_file sim_lib;
  ma_decoder := @ma_decoder sim_lib;
  ma_decoder_init_file := @ma_decoder_init_file sim_lib;
  ma_decoder_init_memory := @ma_decoder_init_memory sim_lib;
  ma_decoder_read_pcm_frames := @ma_decoder_read_pcm_frames sim_lib;
  ma_decoder_uninit := @ma_decoder_uninit sim_lib;
  ma_device := @ma_device sim_lib;
  pUserData := @pUserData sim_lib;
  ma_device_start := @ma_device_start sim_lib;
  ma_device_stop := @ma_device_stop sim_lib
|}.

(** The payloads whose [len] counts bytes once [_bytes_from_generator_samples]
    has looked at them: bytes, a bytearray, an array, and a live,
    one-dimensional, C-contiguous memoryview whose single dimension
    accounts for all of its bytes.  The result is the bytes of the
    payload. *)
Definition byte_sized (v : pyval) : option (list byte) :=
  match v with
  | PyBytes b | PyByteArray b => Some b
  | PyArray a => Some (raw a)
  | PyMemoryview m =>
      match mv_shape m with
      | [d] =>
          if negb (mv_released m) && mv_c_contiguous m
             && (d * mv_itemsize m =? blen (mv_bytes m))
          then Some (mv_bytes m) else None
      | _ => None
      end
  | PyNone | PyInt _ => None
  end.

(** [yields_bytes g bs g']: calling [next] on [g] again and again gives
    payloads whose bytes, one payload after the other, are [bs], and
    leaves the generator at [g']. *)
Inductive yields_bytes {gens : Generators} : generator -> list byte -> generator -> Prop :=
| yields_nothing (g : generator) : yields_bytes g [] g
| yields_chunk (g g1 g' : generator) (v view : pyval) (b bs : list byte) :
    gen_send g PyNone = Yields v g1 ->
    _bytes_from_generator_samples v = Return view ->
    buffer_of view = Some b ->
    yields_bytes g1 bs g' ->
    yields_bytes g (b ++ bs) g'.



(** A generator that answers the value it is sent: it holds a number of
    frames of one silent byte each, yields as many as the int it is sent
    while it has them, ends when asked for more than it has, and raises
    when sent anything but an int. *)
Definition metered : Generators := {|
  generator := Z;
  gen_send := fun left sent =>
    match sent with
    | PyInt n =>
        if n <=? left then Yields (PyBytes (repeat x00 (Z.to_nat n))) (left - n) else Stops
    | _ => Raises (TypeError "an integer is required")
    end
|}.

Definition metered_playback : @device sim_lib metered :=
  MkDevice sim_lib metered PlaybackDevice 1 1 0 0 (Some 0) (Some sim_native_device).

Definition metered_capture : @device sim_lib metered :=
  MkDevice sim_lib metered CaptureDevice 1 1 0 0 (Some 0) (Some sim_native_device).

(* ===================================================================== *)
(** * Properties                                                           *)
(* ===================================================================== *)

(** ** Sample format model *)

(** The width of the format chosen for an integer width is that width. *)
Lemma _decode_ma_format_from_width (sample_width : Z) (f : ma_format) :
  _ma_format_from_width sample_width false = Return f ->
  exists a, _decode_ma_format f = Return (sample_width, a).
Proof.
  unfold _ma_format_from_width.
  destruct (Z.eqb_spec sample_width 1) as [->|_];
    [intros [= <-]; eexists; reflexivity|].
  destruct (Z.eqb_spec sample_width 2) as [->|_];
    [intros [= <-]; eexists; reflexivity|].
  destruct (Z.eqb_spec sample_width 4) as [->|_];
    [intros [= <-]; eexists; reflexivity|].
  discriminate.
Qed.

(** The widths [_decode_ma_format] reports are 1, 2 and 4. *)
Lemma _decode_ma_format_width (f : ma_format) (w : Z) (a : array) :
  _decode_ma_format f = Return (w, a) -> w = 1 \/ w = 2 \/ w = 4.
Proof. destruct f; cbn; intros [= <- _] || discriminate; lia. Qed.

(** The prototype array [_decode_ma_format] hands out is empty and its
    items have the reported width. *)
Lemma _decode_ma_format_proto (f : ma_format) (w : Z) (a : array) :
  _decode_ma_format f = Return (w, a) -> raw a = [] /\ itemsize a = w.
Proof. destruct f; cbn; intros [= <- <-] || discriminate; split; reflexivity. Qed.

(** C7 (as the code has it): a float request gives the 32-bit float format
    whatever the width; an integer request gives unsigned 8-bit for width
    1, signed 16-bit for width 2, signed 32-bit for width 4, and fails
    with [ValueError] for every other width. *)
Theorem ma_format_from_width_cases (sample_width : Z) :
  _ma_format_from_width sample_width true = Return ma_format_f32 /\
  (sample_width = 1 -> _ma_format_from_width sample_width false = Return ma_format_u8) /\
  (sample_width = 2 -> _ma_format_from_width sample_width false = Return ma_format_s16) /\
  (sample_width = 4 -> _ma_format_from_width sample_width false = Return ma_format_s32) /\
  (sample_width <> 1 -> sample_width <> 2 -> sample_width <> 4 ->
   _ma_format_from_width sample_width false =
   Raise (ValueError "unsupported sample_width" [ArgInt sample_width])).
Proof.
  repeat split.
  - intros ->. reflexivity.
  - intros ->. reflexivity.
  - intros ->. reflexivity.
  - intros H1 H2 H4. unfold _ma_format_from_width.
    destruct (Z.eqb_spec sample_width 1); [contradiction|].
    destruct (Z.eqb_spec sample_width 2); [contradiction|].
    destruct (Z.eqb_spec sample_width 4); [contradiction|].
    reflexivity.
Qed.

Lemma ma_format_from_width_cases_witness :
  _ma_format_from_width 3 false = Raise (ValueError "unsupported sample_width" [ArgInt 3]).
Proof.
  apply (proj2 (proj2 (proj2 (proj2 (ma_format_from_width_cases 3))))); lia.
Defined.

(** A float request of width 2 does not fail: it is answered with the
    32-bit float format. *)
Lemma float_request_of_width_2_succeeds :
  _ma_format_from_width 2 true = Return ma_format_f32 /\
  ~ (exists e, _ma_format_from_width 2 true = Raise e).
Proof. split; [reflexivity|]. intros [e He]. discriminate He. Qed.

(** ** DecodedSoundFile *)

(** C8 (as the code has it): with a channel count and a sample rate other
    than zero the constructor always produces an object; its [num_frames]
    is the floor of the sample count divided by the channel count, which
    is the exact quotient when the sample count is a multiple of the
    channel count; a remainder is dropped, not rejected. *)
Theorem DecodedSoundFile_init_num_frames {lib : NativeLib}
    (name : string) (nchannels sample_rate sample_width : Z)
    (sample_format : ma_format) (pcm : array) :
  nchannels <> 0 -> sample_rate <> 0 ->
  exists sound,
    DecodedSoundFile_init name nchannels sample_rate sample_width sample_format pcm
      = Return sound /\
    samples sound = pcm /\
    num_frames sound = array_len pcm / nchannels /\
    nchannels * num_frames sound + array_len pcm mod nchannels = array_len pcm /\
    (array_len pcm mod nchannels = 0 -> num_frames sound * nchannels = array_len pcm).
Proof.
  intros Hc Hr. unfold DecodedSoundFile_init.
  destruct (Z.eqb_spec nchannels 0); [contradiction|].
  destruct (Z.eqb_spec sample_rate 0); [contradiction|].
  eexists. split; [reflexivity|]. cbn.
  split; [reflexivity|]. split; [reflexivity|].
  pose proof (Z.div_mod (array_len pcm) nchannels Hc) as Hdm.
  split; [lia|]. intros H0. lia.
Qed.

Lemma DecodedSoundFile_init_num_frames_witness :
  exists sound,
    @DecodedSoundFile_init sim_lib "take1" 2 44100 2 ma_format_s16 five_samples = Return sound /\
    samples sound = five_samples /\
    num_frames sound = array_len five_samples / 2 /\
    2 * num_frames sound + array_len five_samples mod 2 = array_len five_samples /\
    (array_len five_samples mod 2 = 0 -> num_frames sound * 2 = array_len five_samples).
Proof.
  apply (@DecodedSoundFile_init_num_frames sim_lib "take1" 2 44100 2 ma_format_s16 five_samples);
    lia.
Defined.

(** Five samples on two channels leave a partial frame, and the
    constructor produces an object all the same, with two frames. *)
Lemma partial_frame_is_not_rejected :
  array_len five_samples mod 2 <> 0 /\
  exists sound,
    @DecodedSoundFile_init sim_lib "take1" 2 44100 2 ma_format_s16 five_samples = Return sound /\
    num_frames sound = 2 /\
    num_frames sound * 2 <> array_len five_samples.
Proof.
  split; [vm_compute; discriminate|].
  eexists. split; [reflexivity|]. split; [reflexivity|]. vm_compute. discriminate.
Qed.

(** Zero channels or a zero sample rate make the constructor raise. *)
Lemma DecodedSoundFile_init_zero {lib : NativeLib}
    (name : string) (nchannels sample_rate sample_width : Z)
    (sample_format : ma_format) (samples : array) :
  nchannels = 0 \/ sample_rate = 0 ->
  DecodedSoundFile_init name nchannels sample_rate sample_width sample_format samples
    = Raise ZeroDivisionError.
Proof.
  unfold DecodedSoundFile_init. intros [-> | ->]; [reflexivity|].
  destruct (nchannels =? 0); reflexivity.
Qed.

(** X2: what [decode_file] produces has whole frames only: the array holds
    [frames * nchannels] samples and [num_frames] is the frame count the
    native decoder reported (given that the memory it returned holds
    those frames). *)
Lemma decode_file_whole_frames {lib : NativeLib} (filename : string) (fmt : ma_format)
    (nchannels rate r frames : Z) (data : list byte) (sound : DecodedSoundFile) :
  ma_decode_file (os_path_expanduser filename) fmt nchannels rate = (r, frames, data) ->
  0 <= frames ->
  (forall w a, _decode_ma_format fmt = Return (w, a) -> frames * nchannels * w <= blen data) ->
  decode_file filename fmt nchannels rate = Return sound ->
  array_len (samples sound) = frames * nchannels /\ num_frames sound = frames.
Proof.
  intros Hnative Hframes Hmem. unfold decode_file.
  destruct (_decode_ma_format fmt) as [[w proto]|e] eqn:Hfmt; [cbn|discriminate].
  specialize (Hmem w proto eq_refl).
  pose proof (_decode_ma_format_width fmt w proto Hfmt) as Hw.
  destruct (_decode_ma_format_proto fmt w proto Hfmt) as [Hraw Hitem].
  unfold _get_filename_bytes.
  destruct (os_path_isfile (os_path_expanduser filename)); [cbn|discriminate].
  unfold cffi_unsigned.
  destruct ((0 <=? nchannels) && (nchannels <? 2 ^ 32)) eqn:Hn; [cbn|discriminate].
  destruct ((0 <=? rate) && (rate <? 2 ^ 32)); [cbn|discriminate].
  rewrite Hnative.
  destruct (negb (r =? MA_SUCCESS)); [discriminate|].
  unfold frombytes.
  destruct (_ =? 0); [cbn|discriminate].
  unfold DecodedSoundFile_init.
  destruct (Z.eqb_spec nchannels 0); [discriminate|].
  destruct (Z.eqb_spec rate 0); [discriminate|].
  intros [= <-]. cbn.
  assert (Hlen : array_len (Array (typecode proto) (itemsize proto)
                   (raw proto ++ firstn (Z.to_nat (frames * nchannels * w)) data))
                 = frames * nchannels).
  { unfold array_len, blen. cbn. rewrite Hraw, Hitem. cbn.
    rewrite length_firstn. unfold blen in Hmem.
    apply andb_prop in Hn as [Hn0 _]. apply Z.leb_le in Hn0.
    assert (0 <= frames * nchannels * w) by (apply Z.mul_nonneg_nonneg; lia).
    replace (Z.of_nat (Nat.min (Z.to_nat (frames * nchannels * w)) (length data)))
      with (frames * nchannels * w) by lia.
    apply Z.div_mul. lia. }
  split; [exact Hlen|]. rewrite Hlen. apply Z.div_mul. assumption.
Qed.

Lemma decode_file_whole_frames_witness :
  exists sound,
    @decode_file sim_lib "take1.wav" ma_format_s16 2 44100 = Return sound /\
    array_len (samples sound) = 3 * 2 /\ num_frames sound = 3.
Proof.
  destruct (@decode_file sim_lib "take1.wav" ma_format_s16 2 44100) as [sound|e] eqn:E;
    [|vm_compute in E; discriminate E].
  exists sound. split; [reflexivity|].
  apply (@decode_file_whole_frames sim_lib "take1.wav" ma_format_s16 2 44100
           MA_SUCCESS 3 (repeat x01 12) sound).
  - reflexivity.
  - lia.
  - intros w a [= <- _]. vm_compute. discriminate.
  - exact E.
Defined.

(** ** Format dispatcher *)

Lemma lower_char_idempotent (c : ascii) : lower_char (lower_char c) = lower_char c.
Proof.
  destruct c as [[] [] [] [] [] [] [] []]; reflexivity.
Qed.

(** Lowering is idempotent: the dispatch sees a lowered extension only. *)
Lemma lower_idempotent (s : string) : lower (lower s) = lower s.
Proof.
  induction s as [|c s IH]; cbn; [reflexivity|].
  rewrite lower_char_idempotent, IH. reflexivity.
Qed.

Lemma substring_all (p : string) : String.substring 0 (String.length p) p = p.
Proof. induction p as [|c p IH]; cbn; [reflexivity | f_equal; exact IH]. Qed.

Lemma substring_split (p : string) (n : nat) :
  String.substring 0 n p +:+ String.substring n (String.length p - n) p = p.
Proof.
  revert n. induction p as [|c p IH]; intros [|n]; cbn; try reflexivity.
  - rewrite substring_all. reflexivity.
  - change (String c (String.substring 0 n p +:+
                      String.substring n (String.length p - n) p) = String c p).
    rewrite IH. reflexivity.
Qed.

Lemma _splitext_loop_some (p : string) (dotIndex filenameIndex : Z) (todo : nat)
    (r : string * string) :
  _splitext_loop p dotIndex filenameIndex todo = Some r ->
  r = (slice_to p dotIndex, slice_from p dotIndex).
Proof.
  revert filenameIndex. induction todo as [|todo IH]; intros filenameIndex; cbn.
  - discriminate.
  - destruct (negb _); [intros [= <-]; reflexivity | apply IH].
Qed.

(** The two parts [splitext] returns make up the path again. *)
Lemma splitext_concat (p : string) :
  fst (splitext p) +:+ snd (splitext p) = p.
Proof.
  assert (Hnil : p +:+ EmptyString = p).
  { clear. induction p as [|c p IH]; [reflexivity|].
    change (String c (p +:+ EmptyString) = String c p). rewrite IH. reflexivity. }
  unfold splitext. destruct (rfind p "." >? rfind p "/"); [|exact Hnil].
  destruct (_splitext_loop _ _ _ _) as [r|] eqn:Hloop; [|exact Hnil].
  apply _splitext_loop_some in Hloop. subst r. cbn.
  unfold slice_to, slice_from. apply substring_split.
Qed.

Lemma str_in_spec (x : string) (xs : list string) : str_in x xs = true <-> In x xs.
Proof.
  unfold str_in. rewrite existsb_exists. split.
  - intros [y [Hin Heq]]. apply String.eqb_eq in Heq. subst. exact Hin.
  - intros Hin. exists x. split; [exact Hin | apply String.eqb_refl].
Qed.

(** C5: [get_file_info] and [read_file] select the codec by the lowered
    extension of the file name: [.ogg] and [.vorbis] the Vorbis entry
    points, [.mp3] the MP3 ones, [.flac] the FLAC ones, [.wav] the WAV
    ones; for every other extension both raise [DecodeError] with the
    message "unsupported file format". *)
Theorem dispatch_by_lowered_extension {lib : NativeLib} {codecs : Codecs} (filename : string) :
  let ext := lower (snd (splitext filename)) in
  (ext = ".ogg"%string \/ ext = ".vorbis"%string ->
   get_file_info filename = vorbis_get_file_info filename /\
   read_file filename = vorbis_read_file filename) /\
  (ext = ".mp3"%string ->
   get_file_info filename = mp3_get_file_info filename /\
   read_file filename = mp3_read_file_s16 filename) /\
  (ext = ".flac"%string ->
   get_file_info filename = flac_get_file_info filename /\
   read_file filename = flac_read_file_s16 filename) /\
  (ext = ".wav"%string ->
   get_file_info filename = wav_get_file_info filename /\
   read_file filename = wav_read_file_s16 filename) /\
  (~ In ext [".ogg"; ".vorbis"; ".mp3"; ".flac"; ".wav"]%string ->
   get_file_info filename = Raise (DecodeError "unsupported file format" []) /\
   read_file filename = Raise (DecodeError "unsupported file format" [])).
Proof.
  intros ext. unfold get_file_info, read_file. fold ext. clearbody ext.
  split; [intros [-> | ->]; split; reflexivity|].
  split; [intros ->; split; reflexivity|].
  split; [intros ->; split; reflexivity|].
  split; [intros ->; split; reflexivity|].
  intros Hnot.
  destruct (str_in ext [".ogg"; ".vorbis"]%string) eqn:Hv.
  { apply str_in_spec in Hv. exfalso. apply Hnot. cbn in *. tauto. }
  destruct (String.eqb_spec ext ".mp3"); [exfalso; apply Hnot; cbn; auto 6|].
  destruct (String.eqb_spec ext ".flac"); [exfalso; apply Hnot; cbn; auto 6|].
  destruct (String.eqb_spec ext ".wav"); [exfalso; apply Hnot; cbn; auto 6|].
  split; reflexivity.
Qed.

Lemma dispatch_by_lowered_extension_witness :
  lower (snd (splitext "Music/Track01.MP3")) = ".mp3"%string /\
  @get_file_info sim_lib sim_codecs "Music/Track01.MP3" = Raise (ApplicationError 2) /\
  @read_file sim_lib sim_codecs "Music/Track01.MP3" = Raise (ApplicationError 6).
Proof.
  split; [reflexivity|].
  apply (proj1 (proj2 (@dispatch_by_lowered_extension sim_lib sim_codecs "Music/Track01.MP3"))).
  reflexivity.
Defined.

(** Mixed case, directories with dots, and a name that is all extension. *)
Example dispatch_examples :
  @get_file_info sim_lib sim_codecs "a/b.c/track.Ogg" = Raise (ApplicationError 1) /\
  @get_file_info sim_lib sim_codecs "take.VORBIS" = Raise (ApplicationError 1) /\
  @read_file sim_lib sim_codecs "x.y.FLAC" = Raise (ApplicationError 7) /\
  @read_file sim_lib sim_codecs "~/rec.Wav" = Raise (ApplicationError 8) /\
  @get_file_info sim_lib sim_codecs ".wav" = Raise (DecodeError "unsupported file format" []) /\
  @get_file_info sim_lib sim_codecs "song.wav/readme" =
    Raise (DecodeError "unsupported file format" []) /\
  @read_file sim_lib sim_codecs "song.mp4" = Raise (DecodeError "unsupported file format" []).
Proof. repeat split; reflexivity. Qed.

(** ** Streaming decode engine *)

(** A request beyond the allocated storage: the pull raises, and the
    decoder goes to [ma_decoder_uninit] as it was, without a read. *)
Lemma sg_resume_beyond_capacity {lib : NativeLib} (f : samples_frame) (sent : pyval)
    (want_frames : Z) :
  py_or sent (frames_to_read f) = Return (PyInt want_frames) ->
  want_frames > allocated_buffer_frames f ->
  sg_resume f sent =
  (Failed (MiniaudioError (capacity_message want_frames (allocated_buffer_frames f)) []),
   SgFinished (ma_decoder_uninit (decoder f))).
Proof.
  intros Hwant Hgt. unfold sg_resume. rewrite Hwant.
  destruct (Z.gtb_spec want_frames (allocated_buffer_frames f)); [reflexivity | lia].
Qed.

(** A request within the allocated storage never raises that error. *)
Lemma sg_resume_within_capacity {lib : NativeLib} (f : samples_frame) (sent : pyval)
    (want_frames : Z) :
  py_or sent (frames_to_read f) = Return (PyInt want_frames) ->
  want_frames <= allocated_buffer_frames f ->
  ~ capacity_exceeded (fst (sg_resume f sent)).
Proof.
  intros Hwant Hle [w [a Hcap]]. unfold sg_resume in Hcap. rewrite Hwant in Hcap.
  destruct (Z.gtb_spec want_frames (allocated_buffer_frames f)); [lia|].
  destruct (cffi_unsigned 64 want_frames) as [n0|e] eqn:Hc.
  - destruct (ma_decoder_read_pcm_frames (decoder f) n0) as [[num written] d'].
    destruct (num <=? 0); [discriminate Hcap|].
    unfold frombytes in Hcap.
    match type of Hcap with context [if ?c then _ else _] => destruct c end;
      discriminate Hcap.
  - unfold cffi_unsigned in Hc.
    destruct ((0 <=? want_frames) && (want_frames <? 2 ^ 64)); [discriminate Hc|].
    injection Hc as <-. discriminate Hcap.
Qed.

(** A pull that produced a chunk leaves the generator suspended with the
    same configuration. *)
Lemma sg_resume_chunk {lib : NativeLib} (f : samples_frame) (sent : pyval)
    (chunk : array) (g' : samples_generator) :
  sg_resume f sent = (Chunk chunk, g') ->
  exists f', g' = SgSuspended f' /\
    frames_to_read f' = frames_to_read f /\
    allocated_buffer_frames f' = allocated_buffer_frames f /\
    sg_nchannels f' = sg_nchannels f /\
    sg_sample_width f' = sg_sample_width f.
Proof.
  unfold sg_resume.
  destruct (py_or sent (frames_to_read f)) as [[| z | | | |]|e]; try discriminate.
  destruct (z >? allocated_buffer_frames f); [discriminate|].
  destruct (cffi_unsigned 64 z) as [n0|e]; [|discriminate].
  destruct (ma_decoder_read_pcm_frames (decoder f) n0) as [[num written] d'].
  destruct (num <=? 0); [discriminate|].
  destruct (frombytes _ _); [|discriminate].
  intros [= _ <-]. eexists. split; [reflexivity|]. cbn. auto.
Qed.

(** Running a fresh generator to its first [yield] allocates storage for
    [max(frames_to_read, 16384)] frames. *)
Lemma start_samples_generator_frame {lib : NativeLib} (n nchannels : Z) (fmt : ma_format)
    (d : ma_decoder) (g : samples_generator) :
  start_samples_generator (SgCreated n nchannels fmt d) = Return g ->
  exists f, g = SgSuspended f /\
    frames_to_read f = n /\
    allocated_buffer_frames f = Z.max n 16384 /\
    sg_nchannels f = nchannels /\
    decoder f = d /\
    blen (decodebuffer f) = Z.max n 16384 * nchannels * sg_sample_width f.
Proof.
  unfold start_samples_generator, sg_send.
  destruct (_decode_ma_format fmt) as [[w proto]|e]; [|discriminate].
  unfold ffi_new_int8.
  destruct (Z.ltb_spec (Z.max n 16384 * nchannels * w) 0); [discriminate|].
  destruct (array_len proto =? 0); [|discriminate].
  intros [= <-]. eexists. split; [reflexivity|]. cbn.
  repeat split; try reflexivity.
  unfold blen. rewrite repeat_length. lia.
Qed.

Lemma stream_file_frame {lib : NativeLib} (filename : string) (fmt : ma_format)
    (nchannels rate n : Z) (g : samples_generator) :
  stream_file filename fmt nchannels rate n = Return g ->
  exists f, g = SgSuspended f /\
    frames_to_read f = n /\ allocated_buffer_frames f = Z.max n 16384.
Proof.
  unfold stream_file.
  destruct (_get_filename_bytes filename) as [fb|e]; [cbn|discriminate].
  destruct (cffi_unsigned 32 nchannels); [cbn|discriminate].
  destruct (cffi_unsigned 32 rate); [cbn|discriminate].
  destruct (ma_decoder_init_file fb fmt nchannels rate) as [r d].
  destruct (negb (r =? MA_SUCCESS)); [discriminate|].
  intros Hg. apply start_samples_generator_frame in Hg as (f & -> & Hn & Ha & _).
  eauto.
Qed.

Lemma stream_memory_frame {lib : NativeLib} (data : list byte) (fmt : ma_format)
    (nchannels rate n : Z) (g : samples_generator) :
  stream_memory data fmt nchannels rate n = Return g ->
  exists f, g = SgSuspended f /\
    frames_to_read f = n /\ allocated_buffer_frames f = Z.max n 16384.
Proof.
  unfold stream_memory.
  destruct (cffi_unsigned 32 nchannels); [cbn|discriminate].
  destruct (cffi_unsigned 32 rate); [cbn|discriminate].
  destruct (ma_decoder_init_memory data fmt nchannels rate) as [r d].
  destruct (negb (r =? MA_SUCCESS)); [discriminate|].
  intros Hg. apply start_samples_generator_frame in Hg as (f & -> & Hn & Ha & _).
  eauto.
Qed.

(** What a consumer holds of a stream is a suspended generator whose
    default chunk size is the configured one and whose storage holds
    [max(frames_to_read, 16384)] frames. *)
Lemma stream_state_frame {lib : NativeLib} (n : Z) (g : samples_generator) :
  stream_state n g ->
  exists f, g = SgSuspended f /\
    frames_to_read f = n /\ allocated_buffer_frames f = Z.max n 16384.
Proof.
  induction 1 as [filename fmt nch rate g Hg | data fmt nch rate g Hg
                 | g sent chunk g' _ IH Hpull].
  - eapply stream_file_frame; eassumption.
  - eapply stream_memory_frame; eassumption.
  - destruct IH as (f & -> & Hn & Ha). cbn in Hpull.
    apply sg_resume_chunk in Hpull as (f' & -> & Hn' & Ha' & _).
    exists f'. split; [reflexivity|]. split; congruence.
Qed.

(** C4: on a stream made by [stream_file] or [stream_memory], a pull that
    sends a frame count greater than the allocated capacity raises the
    [MiniaudioError] for a request beyond the storage; no chunk is
    produced, and the decoder is handed to [ma_decoder_uninit] in the
    state it had before the pull: the pull reads no frame from it. *)
Theorem pull_beyond_capacity_fails {lib : NativeLib} (n : Z) (g : samples_generator) :
  stream_state n g ->
  exists f, g = SgSuspended f /\
    forall want_frames, want_frames > allocated_buffer_frames f ->
      sg_send g (PyInt want_frames) =
      (Failed (MiniaudioError (capacity_message want_frames (allocated_buffer_frames f)) []),
       SgFinished (ma_decoder_uninit (decoder_of g))).
Proof.
  intros Hs. destruct (stream_state_frame n g Hs) as (f & -> & Hn & Ha).
  exists f. split; [reflexivity|]. intros want Hgt.
  change (sg_send (SgSuspended f) (PyInt want)) with (sg_resume f (PyInt want)).
  change (decoder_of (SgSuspended f)) with (decoder f).
  apply sg_resume_beyond_capacity; [|exact Hgt].
  unfold py_or. cbn. destruct (Z.eqb_spec want 0); [|reflexivity].
  subst. rewrite Ha in Hgt. lia.
Qed.

Lemma pull_beyond_capacity_fails_witness :
  match @stream_file sim_lib "take1.wav" ma_format_u8 1 44100 1024 with
  | Return g =>
      exists f, g = SgSuspended f /\
        forall want_frames, want_frames > allocated_buffer_frames f ->
          @sg_send sim_lib g (PyInt want_frames) =
          (Failed (MiniaudioError (capacity_message want_frames (allocated_buffer_frames f)) []),
           SgFinished (ma_decoder_uninit (decoder_of g)))
  | Raise _ => False
  end.
Proof.
  destruct (@stream_file sim_lib "take1.wav" ma_format_u8 1 44100 1024) as [g|e] eqn:E.
  - apply (@pull_beyond_capacity_fails sim_lib 1024 g).
    eapply stream_state_file. exact E.
  - vm_compute in E. discriminate E.
Defined.

(** The memory at the decode buffer never gets shorter by a pull. *)
Lemma sg_resume_chunk_buffer {lib : NativeLib} (f f' : samples_frame) (sent : pyval)
    (chunk : array) :
  sg_resume f sent = (Chunk chunk, SgSuspended f') ->
  blen (decodebuffer f) <= blen (decodebuffer f').
Proof.
  unfold sg_resume.
  destruct (py_or sent (frames_to_read f)) as [[| z | | | |]|e]; try discriminate.
  destruct (z >? allocated_buffer_frames f); [discriminate|].
  destruct (cffi_unsigned 64 z) as [n0|e]; [|discriminate].
  destruct (ma_decoder_read_pcm_frames (decoder f) n0) as [[num written] d'].
  destruct (num <=? 0); [discriminate|].
  destruct (frombytes _ _); [|discriminate].
  intros [= _ <-]. cbn. unfold memmove, blen.
  rewrite length_app, length_skipn. lia.
Qed.

(** What running a fresh generator to its first [yield] allocates: a
    buffer of [max(frames_to_read, 16384) * nchannels * sample_width]
    bytes, for the sample width of the output format. *)
Lemma start_samples_generator_buffer {lib : NativeLib} (n nchannels : Z) (fmt : ma_format)
    (d : ma_decoder) (f : samples_frame) :
  start_samples_generator (SgCreated n nchannels fmt d) = Return (SgSuspended f) ->
  sg_nchannels f = nchannels /\
  (exists proto, _decode_ma_format fmt = Return (sg_sample_width f, proto)) /\
  blen (decodebuffer f) = Z.max n 16384 * nchannels * sg_sample_width f.
Proof.
  unfold start_samples_generator, sg_send.
  destruct (_decode_ma_format fmt) as [[w proto]|e]; [|discriminate].
  unfold ffi_new_int8.
  destruct (Z.ltb_spec (Z.max n 16384 * nchannels * w) 0); [discriminate|].
  destruct (array_len proto =? 0); [|discriminate].
  intros [= <-]. cbn. split; [reflexivity|]. split; [eauto|].
  unfold blen. rewrite repeat_length. lia.
Qed.

Lemma stream_file_buffer {lib : NativeLib} (filename : string) (fmt : ma_format)
    (nchannels rate n : Z) (f : samples_frame) :
  stream_file filename fmt nchannels rate n = Return (SgSuspended f) ->
  sg_nchannels f = nchannels /\
  (exists proto, _decode_ma_format fmt = Return (sg_sample_width f, proto)) /\
  blen (decodebuffer f) = Z.max n 16384 * nchannels * sg_sample_width f.
Proof.
  unfold stream_file.
  destruct (_get_filename_bytes filename) as [fb|e]; [cbn|discriminate].
  destruct (cffi_unsigned 32 nchannels); [cbn|discriminate].
  destruct (cffi_unsigned 32 rate); [cbn|discriminate].
  destruct (ma_decoder_init_file fb fmt nchannels rate) as [r d].
  destruct (negb (r =? MA_SUCCESS)); [discriminate|].
  apply start_samples_generator_buffer.
Qed.

Lemma stream_memory_buffer {lib : NativeLib} (data : list byte) (fmt : ma_format)
    (nchannels rate n : Z) (f : samples_frame) :
  stream_memory data fmt nchannels rate n = Return (SgSuspended f) ->
  sg_nchannels f = nchannels /\
  (exists proto, _decode_ma_format fmt = Return (sg_sample_width f, proto)) /\
  blen (decodebuffer f) = Z.max n 16384 * nchannels * sg_sample_width f.
Proof.
  unfold stream_memory.
  destruct (cffi_unsigned 32 nchannels); [cbn|discriminate].
  destruct (cffi_unsigned 32 rate); [cbn|discriminate].
  destruct (ma_decoder_init_memory data fmt nchannels rate) as [r d].
  destruct (negb (r =? MA_SUCCESS)); [discriminate|].
  apply start_samples_generator_buffer.
Qed.

(** On every generator a consumer holds of a stream the memory at the
    decode buffer holds at least the allocated frames. *)
Lemma stream_state_buffer {lib : NativeLib} (n : Z) (g : samples_generator) :
  stream_state n g ->
  forall f, g = SgSuspended f ->
    Z.max n 16384 * sg_nchannels f * sg_sample_width f <= blen (decodebuffer f).
Proof.
  induction 1 as [filename fmt nch rate g Hfile | data fmt nch rate g Hmem
                 | g sent chunk g' Hs IH Hpull]; intros f ->.
  - destruct (stream_file_buffer _ _ _ _ _ _ Hfile) as (-> & _ & ->). lia.
  - destruct (stream_memory_buffer _ _ _ _ _ _ Hmem) as (-> & _ & ->). lia.
  - destruct (stream_state_frame n g Hs) as (f0 & -> & _). cbn in Hpull.
    pose proof (sg_resume_chunk_buffer f0 f sent chunk Hpull) as Hlen.
    destruct (sg_resume_chunk f0 sent chunk _ Hpull) as (f1 & [= <-] & _ & _ & Hc & Hw).
    specialize (IH f0 eq_refl). rewrite Hc, Hw. lia.
Qed.

(** C10: a stream configured with the default chunk size [n] has a
    capacity of [max(n, 16384)] frames: that is the allocated frame
    count, the buffer [stream_file] or [stream_memory] allocates has
    exactly [max(n, 16384) * nchannels * sample_width] bytes, and the
    memory at the buffer never holds less afterwards; a pull that
    requests at most that many frames (the default, or a count that was
    sent, also one above the default) never raises the error for a
    request beyond the storage. *)
Theorem stream_capacity_is_max {lib : NativeLib} (n : Z) (g : samples_generator) :
  stream_state n g ->
  exists f, g = SgSuspended f /\
    allocated_buffer_frames f = Z.max n 16384 /\
    Z.max n 16384 * sg_nchannels f * sg_sample_width f <= blen (decodebuffer f) /\
    (forall filename fmt nchannels rate,
       stream_file filename fmt nchannels rate n = Return g ->
       sg_nchannels f = nchannels /\
       (exists proto, _decode_ma_format fmt = Return (sg_sample_width f, proto)) /\
       blen (decodebuffer f) = Z.max n 16384 * nchannels * sg_sample_width f) /\
    (forall data fmt nchannels rate,
       stream_memory data fmt nchannels rate n = Return g ->
       sg_nchannels f = nchannels /\
       (exists proto, _decode_ma_format fmt = Return (sg_sample_width f, proto)) /\
       blen (decodebuffer f) = Z.max n 16384 * nchannels * sg_sample_width f) /\
    forall sent want_frames,
      py_or sent n = Return (PyInt want_frames) ->
      want_frames <= Z.max n 16384 ->
      ~ capacity_exceeded (fst (sg_send g sent)).
Proof.
  intros Hs. destruct (stream_state_frame n g Hs) as (f & -> & Hn & Ha).
  exists f. split; [reflexivity|]. split; [exact Ha|].
  split; [apply (stream_state_buffer n _ Hs f eq_refl)|].
  split; [intros filename fmt nch rate Hfile; eapply stream_file_buffer; exact Hfile|].
  split; [intros data fmt nch rate Hmem; eapply stream_memory_buffer; exact Hmem|].
  intros sent want Hwant Hle. cbn.
  apply (sg_resume_within_capacity f sent want); [rewrite Hn; exact Hwant | lia].
Qed.

Lemma stream_capacity_is_max_witness :
  match @stream_memory sim_lib [x52; x49; x46; x46] ma_format_u8 1 44100 1024 with
  | Return g =>
      exists f, g = SgSuspended f /\
        allocated_buffer_frames f = Z.max 1024 16384 /\
        Z.max 1024 16384 * sg_nchannels f * sg_sample_width f <= blen (decodebuffer f) /\
        (forall filename fmt nchannels rate,
           @stream_file sim_lib filename fmt nchannels rate 1024 = Return g ->
           sg_nchannels f = nchannels /\
           (exists proto, _decode_ma_format fmt = Return (sg_sample_width f, proto)) /\
           blen (decodebuffer f) = Z.max 1024 16384 * nchannels * sg_sample_width f) /\
        (forall data fmt nchannels rate,
           @stream_memory sim_lib data fmt nchannels rate 1024 = Return g ->
           sg_nchannels f = nchannels /\
           (exists proto, _decode_ma_format fmt = Return (sg_sample_width f, proto)) /\
           blen (decodebuffer f) = Z.max 1024 16384 * nchannels * sg_sample_width f) /\
        forall sent want_frames,
          py_or sent 1024 = Return (PyInt want_frames) ->
          want_frames <= Z.max 1024 16384 ->
          ~ capacity_exceeded (fst (@sg_send sim_lib g sent))
  | Raise _ => False
  end.
Proof.
  destruct (@stream_memory sim_lib [x52; x49; x46; x46] ma_format_u8 1 44100 1024)
    as [g|e] eqn:E.
  - apply (@stream_capacity_is_max sim_lib 1024 g).
    eapply stream_state_memory. exact E.
  - vm_compute in E. discriminate E.
Defined.

(** After the error for a request beyond the storage the stream is over:
    further pulls end at once. *)
Lemma pull_after_finish_ends {lib : NativeLib} (d : ma_decoder) (sent : pyval) :
  sg_send (SgFinished d) sent = (EndOfStream, SgFinished d).
Proof. reflexivity. Qed.

(** In the simulation a stream with the default chunk size 1024 serves a
    pull of 16384 frames. *)
Example pull_above_default_is_served :
  match @stream_file sim_lib "take1.wav" ma_format_u8 1 44100 1024 with
  | Return g => fst (@sg_send sim_lib g (PyInt 16384)) = Chunk (Array "b" 1 (repeat x01 3))
  | Raise _ => False
  end.
Proof. vm_compute. reflexivity. Qed.

(** ** Device callback bridge *)

(** The bytes view of a byte-sized payload: there is one, its length is
    the number of bytes of the payload, it is true when the payload is not
    empty, and it gives the same bytes as one contiguous buffer. *)
Lemma samples_bytes_of_buffer (samples : pyval) (payload : list byte) :
  byte_sized samples = Some payload ->
  exists view,
    _bytes_from_generator_samples samples = Return view /\
    py_len view = Return (blen payload) /\
    truthy view = Return (negb (blen payload =? 0)) /\
    buffer_of view = Some payload /\
    memmove_source view = Return payload.
Proof.
  destruct samples as [| z | b | b | a | [rel item shape cc mem]]; cbn; try discriminate.
  - intros [= ->]. exists (PyBytes payload). repeat split.
  - intros [= ->]. exists (PyByteArray payload). repeat split.
  - intros [= <-]. eexists. split; [reflexivity|]. repeat split.
  - destruct shape as [|d [|d' shape]]; try discriminate.
    destruct rel; [discriminate|]. destruct cc; [|discriminate]. cbn.
    destruct (Z.eqb_spec (d * item) (blen mem)) as [Hd|]; [|discriminate].
    intros [= <-].
    destruct (Z.eqb_spec item 1) as [->|Hitem]; cbn.
    + rewrite Z.mul_1_r in Hd. subst d. eexists. split; [reflexivity|]. repeat split.
    + eexists. split; [reflexivity|]. repeat split.
Qed.

(** An object with a length is true when the length is not 0. *)
Lemma truthy_of_len (v : pyval) (n : Z) :
  py_len v = Return n -> truthy v = Return (negb (n =? 0)).
Proof.
  destruct v as [| z | b | b | a | m]; cbn; try discriminate.
  - intros [= <-]. reflexivity.
  - intros [= <-]. reflexivity.
  - intros [= <-]. reflexivity.
  - intros ->. reflexivity.
Qed.

Lemma memmove_whole (dest src : list byte) :
  memmove dest src (blen src) = src ++ skipn (length src) dest.
Proof.
  unfold memmove, blen. rewrite Nat2Z.id, firstn_all. reflexivity.
Qed.






(** Through the native entry point: the registered playback device of the
    simulation is found by the identity in its user data, its routine
    overflows a one-frame request, the error comes out of the bridge and
    the device in the store is left unbound. *)
Example bridge_playback_overflow :
  exists w' : @world sim_lib scripted,
    @internal_data_callback sim_lib scripted sim_world sim_native_device one_frame_output [] 1 =
      (Raise too_many_frames_error, w', one_frame_output) /\
    objects w' !! 0 = Some (set_callback_generator sim_playback None).
Proof. eexists. split; reflexivity. Qed.

Lemma memmove_beyond (dest src : list byte) (k : nat) :
  (length src <= k)%nat ->
  skipn k (src ++ skipn (length src) dest) = skipn k dest.
Proof.
  intros Hk. rewrite skipn_app, skipn_skipn.
  rewrite (skipn_all2 src) by exact Hk. cbn.
  f_equal. lia.
Qed.

(** A copy of at most [k] bytes leaves the destination from offset [k]
    on as it was. *)
Lemma memmove_within (dest src : list byte) (n : Z) (k : nat) :
  n <= Z.of_nat k -> skipn k (memmove dest src n) = skipn k dest.
Proof.
  intros Hn. unfold memmove. apply memmove_beyond.
  rewrite length_firstn. lia.
Qed.

(** The playback callback never writes beyond
    [framecount * sample_width * nchannels] bytes of the output. *)
Lemma playback_copy_stays_in_bounds {lib : NativeLib} {gens : Generators}
    (self self' : device) (output output' input : list byte) (framecount : Z)
    (r : result unit) :
  PlaybackDevice_data_callback self output input framecount = (r, self', output') ->
  skipn (Z.to_nat (framecount * self_sample_width self * self_nchannels self)) output' =
  skipn (Z.to_nat (framecount * self_sample_width self * self_nchannels self)) output.
Proof.
  unfold PlaybackDevice_data_callback.
  destruct (callback_generator self) as [g|]; [|intros [= _ _ <-]; reflexivity].
  destruct (gen_send g (PyInt framecount)) as [produced g'| |e];
    [|intros [= _ _ <-]; reflexivity|intros [= _ _ <-]; reflexivity].
  destruct (_bytes_from_generator_samples produced) as [view|e];
    [|intros [= _ _ <-]; reflexivity].
  destruct (truthy view) as [[|]|e];
    [|intros [= _ _ <-]; reflexivity|intros [= _ _ <-]; reflexivity].
  destruct (py_len view) as [n|e]; [|intros [= _ _ <-]; reflexivity].
  destruct (Z.gtb_spec n
              (framecount * (self_sample_width (set_callback_generator self (Some g')))
               * (self_nchannels (set_callback_generator self (Some g')))))
    as [|Hle]; [intros [= _ _ <-]; reflexivity|].
  destruct (memmove_source view) as [src|e]; [|intros [= _ _ <-]; reflexivity].
  intros [= _ _ <-]. apply memmove_within.
  destruct self; cbn in *. lia.
Qed.

(** The duplex callback copies the whole of a non-empty byte-sized
    payload to the output, whatever the frame count. *)
Lemma duplex_copies_whole_payload {lib : NativeLib} {gens : Generators}
    (self : device) (g g' : generator) (out_data : pyval)
    (payload output input : list byte) (framecount : Z) :
  let buffer_size := self_sample_width self * capture_channels self * framecount in
  callback_generator self = Some g ->
  0 <= buffer_size ->
  gen_send g (PyByteArray (memmove (repeat x00 (Z.to_nat buffer_size)) input buffer_size))
    = Yields out_data g' ->
  truthy out_data = Return true ->
  byte_sized out_data = Some payload ->
  DuplexStream_data_callback self output input framecount =
    (Return tt, set_callback_generator self (Some g'),
     payload ++ skipn (length payload) output).
Proof.
  intros buffer_size Hg Hsize Hsend Htrue Hbuf.
  destruct (samples_bytes_of_buffer _ _ Hbuf) as (view & Hview & Hlen & _ & _ & Hsrc).
  unfold DuplexStream_data_callback, bytearray. fold buffer_size.
  destruct (Z.ltb_spec buffer_size 0); [lia|].
  rewrite Hg, Hsend, Htrue, Hview, Hlen, Hsrc, memmove_whole. reflexivity.
Qed.

Lemma duplex_copies_whole_payload_witness :
  @DuplexStream_data_callback sim_lib scripted sim_duplex one_frame_output (repeat x02 4) 1 =
    (Return tt, set_callback_generator sim_duplex (Some []),
     repeat x01 8 ++ skipn (length (repeat x01 8)) one_frame_output).
Proof.
  apply (@duplex_copies_whole_payload sim_lib scripted sim_duplex [eight_bytes] []
           eight_bytes (repeat x01 8) one_frame_output (repeat x02 4) 1);
    solve [reflexivity | cbn; lia].
Defined.

(** C2 (the code at an input where it differs): a duplex stream for 16-bit
    stereo whose routine answers a one-frame invocation with eight bytes.
    The bound is four bytes; the callback returns normally, keeps the
    routine bound and has written all eight bytes, so the four bytes
    after the hardware buffer are overwritten.  The playback callback on
    the same input raises instead and writes nothing. *)
Theorem duplex_payload_overruns_output :
  @DuplexStream_data_callback sim_lib scripted sim_duplex one_frame_output (repeat x02 4) 1 =
    (Return tt, set_callback_generator sim_duplex (Some []), repeat x01 8) /\
  blen (repeat x01 8) > 1 * self_sample_width sim_duplex * playback_channels sim_duplex /\
  skipn 4 (repeat x01 8) <> skipn 4 one_frame_output /\
  @PlaybackDevice_data_callback sim_lib scripted sim_playback one_frame_output (repeat x02 4) 1 =
    (Raise too_many_frames_error, set_callback_generator sim_playback None, one_frame_output).
Proof.
  split; [reflexivity|]. split; [reflexivity|]. split; [discriminate|]. reflexivity.
Qed.

(** ** Device lifecycle *)

(** C3 (as the code has it): [stop] clears the routine binding, on every
    class of device and whatever the native stop reports; it then calls
    the native stop and raises [MiniaudioError] when that reports
    failure. *)
Theorem stop_clears_binding {lib : NativeLib} {gens : Generators} (self : device) :
  callback_generator (snd (stop self)) = None /\
  dev_class (snd (stop self)) = dev_class self /\
  match _device self with
  | Some d =>
      fst (stop self) =
        (if fst (ma_device_stop d) =? MA_SUCCESS then Return tt
         else Raise (MiniaudioError "failed to stop audio device"
                       [ArgInt (fst (ma_device_stop d))])) /\
      _device (snd (stop self)) = Some (snd (ma_device_stop d))
  | None => fst (stop self) = Raise none_pointer_error
  end.
Proof.
  destruct self as [cls sw nch cch pch cg [d|]]; unfold stop; cbn.
  - destruct (ma_device_stop d) as [r d']. cbn.
    destruct (r =? MA_SUCCESS); cbn; auto.
  - auto.
Qed.

(** A bound routine does not survive [stop], on any of the three classes. *)
Lemma stop_drops_bound_routine :
  callback_generator sim_playback = Some [eight_bytes] /\
  callback_generator (snd (@stop sim_lib scripted sim_playback)) = None /\
  callback_generator sim_capture = Some [eight_bytes] /\
  callback_generator (snd (@stop sim_lib scripted sim_capture)) = None /\
  callback_generator sim_duplex = Some [eight_bytes] /\
  callback_generator (snd (@stop sim_lib scripted sim_duplex)) = None /\
  fst (@stop sim_lib scripted sim_playback) = Return tt.
Proof. repeat split. Qed.

(** On a device that holds no native device, [start] and [stop] raise and
    the device stays without one. *)
Lemma closed_device_is_terminal {lib : NativeLib} {gens : Generators}
    (self : device) (cb : generator + pyval) :
  _device self = None ->
  fst (start self cb) <> Return tt /\
  _device (snd (start self cb)) = None /\
  fst (stop self) = Raise none_pointer_error /\
  _device (snd (stop self)) = None.
Proof.
  destruct self as [cls sw nch cch pch cg dev]. cbn. intros ->.
  unfold start, stop. cbn.
  destruct cg as [g|]; [cbn; repeat split; discriminate|].
  destruct cb as [g|v]; cbn; repeat split; discriminate.
Qed.

(** C6: [close] on a device object returns normally; afterwards the
    object has no bound routine and no native device, its identity is no
    longer in [_callback_data], and the native device it held, if any, has
    been handed to [ma_device_uninit] (once); a second [close] returns
    normally and changes nothing; on the closed object [start] and [stop]
    raise and it stays closed. *)
Theorem close_is_idempotent {lib : NativeLib} {gens : Generators}
    (w : world) (self : Z) (obj : device) :
  objects w !! self = Some obj ->
  exists (obj' : device) (w' : world),
    close w self = (Return tt, w') /\
    objects w' !! self = Some obj' /\
    callback_generator obj' = None /\
    _device obj' = None /\
    _callback_data w' !! self = None /\
    uninitialized w' =
      uninitialized w ++ match _device obj with Some d => [d] | None => [] end /\
    close w' self = (Return tt, w') /\
    forall cb,
      fst (start obj' cb) <> Return tt /\
      _device (snd (start obj' cb)) = None /\
      fst (stop obj') = Raise none_pointer_error /\
      _device (snd (stop obj')) = None.
Proof.
  intros Hobj.
  destruct obj as [cls sw nch cch pch cg dev].
  assert (Hreg : match _callback_data w !! self with
                 | Some _ => delete self (_callback_data w)
                 | None => _callback_data w
                 end !! self = None).
  { destruct (_callback_data w !! self) eqn:Hr; [apply lookup_delete_eq | exact Hr]. }
  pose proof (fun cb => closed_device_is_terminal
                          (MkDevice _ _ cls sw nch cch pch None None) cb eq_refl) as Hterm.
  exists (MkDevice _ _ cls sw nch cch pch None None).
  destruct dev as [d|]; eexists;
    (split; [unfold close; rewrite Hobj; cbn; reflexivity|]); cbn.
  - split; [apply lookup_insert_eq|]. split; [reflexivity|]. split; [reflexivity|].
    split; [exact Hreg|]. split; [reflexivity|]. split.
    + unfold close. cbn. rewrite lookup_insert_eq. cbn. rewrite Hreg.
      rewrite insert_insert_eq. reflexivity.
    + exact Hterm.
  - split; [apply lookup_insert_eq|]. split; [reflexivity|]. split; [reflexivity|].
    split; [exact Hreg|]. split; [symmetry; apply app_nil_r|]. split.
    + unfold close. cbn. rewrite lookup_insert_eq. cbn. rewrite Hreg.
      rewrite insert_insert_eq. reflexivity.
    + exact Hterm.
Qed.

Lemma close_is_idempotent_witness :
  exists (obj' : @device sim_lib scripted) (w' : @world sim_lib scripted),
    close sim_world 0 = (Return tt, w') /\
    objects w' !! 0 = Some obj' /\
    callback_generator obj' = None /\
    _device obj' = None /\
    _callback_data w' !! 0 = None /\
    uninitialized w' =
      uninitialized sim_world ++
      match _device sim_playback with Some d => [d] | None => [] end /\
    close w' 0 = (Return tt, w') /\
    forall cb,
      fst (start obj' cb) <> Return tt /\
      _device (snd (start obj' cb)) = None /\
      fst (stop obj') = Raise none_pointer_error /\
      _device (snd (stop obj')) = None.
Proof.
  apply (@close_is_idempotent sim_lib scripted sim_world 0 sim_playback).
  reflexivity.
Defined.

(** In the simulation: the registered playback device is closed, its
    native struct is the one handed to [ma_device_uninit], and the bridge
    no longer finds the device. *)
Example close_sim_playback :
  exists w' : @world sim_lib scripted,
    close sim_world 0 = (Return tt, w') /\
    uninitialized w' = [sim_native_device] /\
    @internal_data_callback sim_lib scripted w' sim_native_device one_frame_output [] 1 =
      (Raise (KeyError 0), w', one_frame_output).
Proof. eexists. split; [reflexivity|]. split; reflexivity. Qed.

(** ** The native entry point *)

(** C9: when the frame count is 0 or the device struct carries a null
    user-data pointer, [internal_data_callback] returns at once: the
    result is normal and the interpreter state (every device object and
    its routine, the registry) and the output are as before, whatever the
    registry holds, also when it holds nothing. *)
Theorem bridge_returns_immediately {lib : NativeLib} {gens : Generators}
    (w : world) (device : ma_device) (output input : list byte) (framecount : Z) :
  framecount = 0 \/ pUserData device = None ->
  internal_data_callback w device output input framecount = (Return tt, w, output).
Proof.
  unfold internal_data_callback. intros [-> | ->]; [reflexivity|].
  rewrite orb_true_r. reflexivity.
Qed.

Lemma bridge_returns_immediately_witness :
  @internal_data_callback sim_lib scripted sim_world (SimDevice None true)
    one_frame_output [] 1 = (Return tt, sim_world, one_frame_output) /\
  @internal_data_callback sim_lib scripted sim_world sim_native_device
    one_frame_output [] 0 = (Return tt, sim_world, one_frame_output).
Proof.
  split.
  - apply (@bridge_returns_immediately sim_lib scripted). right. reflexivity.
  - apply (@bridge_returns_immediately sim_lib scripted). left. reflexivity.
Defined.

(** With a frame count other than 0 and a user-data pointer the registry
    is consulted: an identity it does not hold raises [KeyError]. *)
Lemma bridge_looks_up_otherwise {lib : NativeLib} {gens : Generators}
    (w : world) (device : ma_device) (userdata output input : list byte) (framecount : Z) :
  framecount <> 0 ->
  pUserData device = Some userdata ->
  _callback_data w !! unpack_q userdata = None ->
  internal_data_callback w device output input framecount =
    (Raise (KeyError (unpack_q userdata)), w, output).
Proof.
  intros Hf Hp Hreg. unfold internal_data_callback. rewrite Hp. cbn.
  destruct (Z.eqb_spec framecount 0); [contradiction|]. cbn.
  rewrite Hreg. reflexivity.
Qed.

(** ** The identity round trip *)

Lemma byte_of_Z_value (v : Z) :
  0 <= v < 256 -> Z.of_N (Byte.to_N (byte_of_Z v)) = v.
Proof.
  intros Hv. unfold byte_of_Z.
  destruct (Byte.of_N (Z.to_N v)) as [b|] eqn:Hb.
  - apply Byte.to_of_N in Hb. cbn. rewrite Hb. lia.
  - apply Byte.of_N_None_iff in Hb. lia.
Qed.

Lemma le_bytes_length (n : nat) (u : Z) : length (le_bytes n u) = n.
Proof. revert u. induction n as [|n IH]; intros u; cbn; [reflexivity | f_equal; apply IH]. Qed.

Lemma le_bytes_value (n : nat) (u : Z) :
  fold_right (fun x acc => Z.of_N (Byte.to_N x) + 256 * acc) 0 (le_bytes n u)
  = u mod 256 ^ Z.of_nat n.
Proof.
  revert u. induction n as [|n IH]; intros u.
  - cbn. symmetry. apply Z.mod_1_r.
  - cbn [le_bytes fold_right]. rewrite IH.
    rewrite byte_of_Z_value by (apply Z.mod_pos_bound; lia).
    rewrite Nat2Z.inj_succ, Z.pow_succ_r by lia.
    symmetry. apply Z.rem_mul_r; [lia|]. apply Z.pow_pos_nonneg; lia.
Qed.

(** X20: what the bridge unpacks from the user data a constructor packed
    is the identity that was packed: for every identity that fits a
    signed 64-bit integer, [struct.pack('q', ...)] gives eight bytes, and
    [struct.unpack('q', ...)] on the first eight bytes of the char array
    made from them gives the identity back. *)
Theorem unpack_q_pack_q (z : Z) (b : list byte) :
  pack_q z = Some b ->
  length b = 8%nat /\ unpack_q (ffi_new_char_array b) = z.
Proof.
  unfold pack_q. destruct (Z.leb_spec (- 2 ^ 63) z) as [Hlo|]; [|discriminate].
  destruct (Z.ltb_spec z (2 ^ 63)) as [Hhi|]; [|discriminate].
  cbn [andb]. intros Hb.
  assert (Heq : b = le_bytes 8 (z mod 2 ^ 64)) by congruence.
  subst b. clear Hb.
  split; [apply le_bytes_length|].
  assert (Hu : fold_right (fun x acc => Z.of_N (Byte.to_N x) + 256 * acc) 0
                 (firstn 8 (ffi_new_char_array (le_bytes 8 (z mod 2 ^ 64))))
               = z mod 2 ^ 64).
  { unfold ffi_new_char_array.
    rewrite firstn_app, le_bytes_length, Nat.sub_diag, firstn_O, app_nil_r.
    rewrite <- (le_bytes_length 8 (z mod 2 ^ 64)) at 1. rewrite firstn_all.
    rewrite le_bytes_value.
    change (256 ^ Z.of_nat 8) with (2 ^ 64).
    apply Z.mod_mod. lia. }
  unfold unpack_q. cbv zeta. rewrite Hu. clear Hu.
  destruct (Z.ltb_spec (z mod 2 ^ 64) (2 ^ 63)) as [Hs|Hs].
  - destruct (Z.lt_ge_cases z 0) as [Hneg|Hpos].
    + rewrite <- (Z.mod_add z 1 (2 ^ 64)) in Hs by lia.
      rewrite Z.mod_small in Hs by lia. lia.
    + apply Z.mod_small. lia.
  - destruct (Z.lt_ge_cases z 0) as [Hneg|Hpos].
    + rewrite <- (Z.mod_add z 1 (2 ^ 64)) by lia.
      rewrite Z.mod_small by lia. lia.
    + rewrite Z.mod_small in Hs by lia. lia.
Qed.

Lemma unpack_q_pack_q_witness :
  length (le_bytes 8 ((-2) mod 2 ^ 64)) = 8%nat /\
  unpack_q (ffi_new_char_array (le_bytes 8 ((-2) mod 2 ^ 64))) = -2.
Proof. apply (unpack_q_pack_q (-2)). reflexivity. Defined.

(** ** More on the data callbacks *)

(** X9: whatever the bound routine produces and however the callback
    ends, the playback callback leaves every byte of the memory at
    [output] from offset [framecount * sample_width * nchannels] on as it
    was. *)
Theorem playback_never_writes_past_bound {lib : NativeLib} {gens : Generators}
    (self : device) (output input : list byte) (framecount : Z) :
  skipn (Z.to_nat (framecount * self_sample_width self * self_nchannels self))
        (snd (PlaybackDevice_data_callback self output input framecount)) =
  skipn (Z.to_nat (framecount * self_sample_width self * self_nchannels self)) output.
Proof.
  destruct (PlaybackDevice_data_callback self output input framecount)
    as [[r self'] output'] eqn:E.
  cbn. eapply playback_copy_stays_in_bounds. exact E.
Qed.

(** X10: bytes, a bytearray, an array or a one-dimensional C-contiguous
    memoryview of at most [framecount * sample_width * nchannels] bytes
    is copied, byte for byte, to the front of the output; the rest of the
    output is kept, the callback returns normally and the routine,
    advanced by one step, stays bound.  For any payload, when its bytes
    view has a length [n] of at most that bound and gives a contiguous
    buffer, it is the first [n] bytes of that buffer that are copied so
    (for a memoryview of several dimensions [n] is the first dimension,
    not the number of bytes). *)
Theorem playback_copies_payload {lib : NativeLib} {gens : Generators}
    (self : device) (g g' : generator) (produced : pyval)
    (output input : list byte) (framecount : Z) :
  callback_generator self = Some g ->
  gen_send g (PyInt framecount) = Yields produced g' ->
  (forall payload,
     byte_sized produced = Some payload ->
     blen payload <= framecount * self_sample_width self * self_nchannels self ->
     PlaybackDevice_data_callback self output input framecount =
       (Return tt, set_callback_generator self (Some g'),
        payload ++ skipn (length payload) output)) /\
  (forall view n src,
     _bytes_from_generator_samples produced = Return view ->
     py_len view = Return n ->
     memmove_source view = Return src ->
     0 <= n <= framecount * self_sample_width self * self_nchannels self ->
     PlaybackDevice_data_callback self output input framecount =
       (Return tt, set_callback_generator self (Some g'),
        firstn (Z.to_nat n) src ++ skipn (length (firstn (Z.to_nat n) src)) output)).
Proof.
  intros Hg Hsend.
  assert (Hview : forall view n src,
            _bytes_from_generator_samples produced = Return view ->
            py_len view = Return n ->
            memmove_source view = Return src ->
            0 <= n <= framecount * self_sample_width self * self_nchannels self ->
            PlaybackDevice_data_callback self output input framecount =
              (Return tt, set_callback_generator self (Some g'),
               firstn (Z.to_nat n) src ++ skipn (length (firstn (Z.to_nat n) src)) output)).
  { intros view n src Hview Hlen Hsrc [H0 Hle].
    unfold PlaybackDevice_data_callback.
    rewrite Hg, Hsend, Hview, (truthy_of_len _ _ Hlen).
    destruct (Z.eqb_spec n 0) as [->|Hn]; cbn.
    - reflexivity.
    - rewrite Hlen, Hsrc.
      destruct (Z.gtb_spec n (framecount * self_sample_width self * self_nchannels self))
        as [Hgt|_]; [lia|].
      reflexivity. }
  split; [|exact Hview].
  intros payload Hsized Hle.
  destruct (samples_bytes_of_buffer _ _ Hsized) as (view & Hv & Hlen & _ & _ & Hsrc).
  rewrite (Hview view (blen payload) payload Hv Hlen Hsrc)
    by (split; [unfold blen; lia | exact Hle]).
  unfold blen. rewrite Nat2Z.id, firstn_all. reflexivity.
Qed.

Lemma playback_copies_payload_witness :
  (forall payload,
     byte_sized four_bytes = Some payload ->
     blen payload <= 1 * self_sample_width bound_playback * self_nchannels bound_playback ->
     @PlaybackDevice_data_callback sim_lib scripted bound_playback one_frame_output [] 1 =
       (Return tt, set_callback_generator bound_playback (Some []),
        payload ++ skipn (length payload) one_frame_output)) /\
  (forall view n src,
     _bytes_from_generator_samples four_bytes = Return view ->
     py_len view = Return n ->
     memmove_source view = Return src ->
     0 <= n <= 1 * self_sample_width bound_playback * self_nchannels bound_playback ->
     @PlaybackDevice_data_callback sim_lib scripted bound_playback one_frame_output [] 1 =
       (Return tt, set_callback_generator bound_playback (Some []),
        firstn (Z.to_nat n) src ++
        skipn (length (firstn (Z.to_nat n) src)) one_frame_output)).
Proof.
  apply (@playback_copies_payload sim_lib scripted bound_playback [four_bytes] []
           four_bytes one_frame_output [] 1); reflexivity.
Defined.

(** X10 at two inputs: the four bytes of an array are copied whole; of a
    memoryview of two rows and two columns, four bytes in all, only the
    first two bytes are. *)
Example playback_copies_examples :
  @PlaybackDevice_data_callback sim_lib scripted bound_playback one_frame_output [] 1 =
    (Return tt, set_callback_generator bound_playback (Some []),
     [x01; x02; x03; x04; xaa; xaa; xaa; xaa]) /\
  fst (@PlaybackDevice_data_callback sim_lib scripted
         (set_callback_generator bound_playback
            (Some [PyMemoryview (MemView false 1 [2; 2] true [x01; x02; x03; x04])]))
         one_frame_output [] 1) =
    (Return tt,
     set_callback_generator
       (set_callback_generator bound_playback
          (Some [PyMemoryview (MemView false 1 [2; 2] true [x01; x02; x03; x04])]))
       (Some [])) /\
  snd (@PlaybackDevice_data_callback sim_lib scripted
         (set_callback_generator bound_playback
            (Some [PyMemoryview (MemView false 1 [2; 2] true [x01; x02; x03; x04])]))
         one_frame_output [] 1) =
    [x01; x02; x00; x00; xaa; xaa; xaa; xaa].
Proof. repeat split. Qed.

(** X11: a capture device with a bound routine sends the routine exactly
    the first [sample_width * nchannels * framecount] bytes at [input],
    unmodified, as a bytearray; what the routine yields is ignored, the
    output is not touched, and the routine is unbound when it stops or
    raises (an exception is raised again). *)
Theorem capture_delivers_input {lib : NativeLib} {gens : Generators}
    (self : device) (g : generator) (output input : list byte) (framecount : Z) :
  let buffer_size := self_sample_width self * self_nchannels self * framecount in
  callback_generator self = Some g ->
  0 <= buffer_size <= blen input ->
  CaptureDevice_data_callback self output input framecount =
    match gen_send g (PyByteArray (firstn (Z.to_nat buffer_size) input)) with
    | Yields _ g' => (Return tt, set_callback_generator self (Some g'), output)
    | Stops => (Return tt, set_callback_generator self None, output)
    | Raises e => (Raise e, set_callback_generator self None, output)
    end.
Proof.
  intros buffer_size Hg [H0 Hin].
  unfold CaptureDevice_data_callback, bytearray. rewrite Hg. fold buffer_size.
  destruct (Z.ltb_spec buffer_size 0); [lia|].
  assert (Hdata : memmove (repeat x00 (Z.to_nat buffer_size)) input buffer_size
                  = firstn (Z.to_nat buffer_size) input).
  { unfold memmove. rewrite length_firstn.
    unfold blen in Hin.
    replace (Nat.min (Z.to_nat buffer_size) (length input)) with (Z.to_nat buffer_size) by lia.
    rewrite skipn_all2 by (rewrite repeat_length; lia).
    apply app_nil_r. }
  rewrite Hdata. reflexivity.
Qed.

Lemma capture_delivers_input_witness :
  @CaptureDevice_data_callback sim_lib scripted sim_capture one_frame_output
     [x0a; x0b; x0c; x0d; x0e] 1 =
    match @gen_send scripted [eight_bytes]
            (PyByteArray (firstn (Z.to_nat (2 * 2 * 1)) [x0a; x0b; x0c; x0d; x0e])) with
    | Yields _ g' => (Return tt, set_callback_generator sim_capture (Some g'), one_frame_output)
    | Stops => (Return tt, set_callback_generator sim_capture None, one_frame_output)
    | Raises e => (Raise e, set_callback_generator sim_capture None, one_frame_output)
    end.
Proof.
  apply (@capture_delivers_input sim_lib scripted sim_capture [eight_bytes]
           one_frame_output [x0a; x0b; x0c; x0d; x0e] 1).
  - reflexivity.
  - split; vm_compute; discriminate.
Defined.

(** The input copy of the capture and duplex callbacks succeeds for
    sizes that are not negative. *)
Lemma bytearray_nonneg (n : Z) : 0 <= n -> bytearray n = Return (repeat x00 (Z.to_nat n)).
Proof. intros Hn. unfold bytearray. destruct (Z.ltb_spec n 0); [lia | reflexivity]. Qed.

(** X12: when the bound routine ends ([StopIteration]) on the value the
    callback of its class sends it (the frame count for playback, the
    bytearray with the input frames for capture and duplex), the callback
    returns normally, clears the binding and leaves the output as it
    was. *)
Theorem routine_end_unbinds {lib : NativeLib} {gens : Generators}
    (self : device) (g : generator) (output input : list byte) (framecount : Z) :
  let capture_size := self_sample_width self * self_nchannels self * framecount in
  let duplex_size := self_sample_width self * capture_channels self * framecount in
  callback_generator self = Some g ->
  0 <= capture_size ->
  0 <= duplex_size ->
  gen_send g
    match dev_class self with
    | PlaybackDevice => PyInt framecount
    | CaptureDevice =>
        PyByteArray (memmove (repeat x00 (Z.to_nat capture_size)) input capture_size)
    | DuplexStream =>
        PyByteArray (memmove (repeat x00 (Z.to_nat duplex_size)) input duplex_size)
    end = Stops ->
  data_callback self output input framecount =
    (Return tt, set_callback_generator self None, output).
Proof.
  intros capture_size duplex_size Hg Hc Hd Hstop. unfold data_callback.
  destruct (dev_class self).
  - unfold CaptureDevice_data_callback. fold capture_size.
    rewrite Hg, bytearray_nonneg, Hstop by exact Hc. reflexivity.
  - unfold PlaybackDevice_data_callback. rewrite Hg, Hstop. reflexivity.
  - unfold DuplexStream_data_callback. fold duplex_size.
    rewrite bytearray_nonneg, Hg, Hstop by exact Hd. reflexivity.
Qed.

Lemma routine_end_unbinds_witness :
  @data_callback sim_lib metered metered_playback one_frame_output [] 1 =
    (Return tt, set_callback_generator metered_playback None, one_frame_output).
Proof.
  apply (@routine_end_unbinds sim_lib metered metered_playback 0 one_frame_output [] 1).
  - reflexivity.
  - vm_compute. discriminate.
  - vm_compute. discriminate.
  - reflexivity.
Defined.

(** X13: when the bound routine raises an exception on the value the
    callback of its class sends it, the callback clears the binding,
    leaves the output as it was and raises the same exception. *)
Theorem routine_error_unbinds {lib : NativeLib} {gens : Generators}
    (self : device) (g : generator) (e : exn) (output input : list byte) (framecount : Z) :
  let capture_size := self_sample_width self * self_nchannels self * framecount in
  let duplex_size := self_sample_width self * capture_channels self * framecount in
  callback_generator self = Some g ->
  0 <= capture_size ->
  0 <= duplex_size ->
  gen_send g
    match dev_class self with
    | PlaybackDevice => PyInt framecount
    | CaptureDevice =>
        PyByteArray (memmove (repeat x00 (Z.to_nat capture_size)) input capture_size)
    | DuplexStream =>
        PyByteArray (memmove (repeat x00 (Z.to_nat duplex_size)) input duplex_size)
    end = Raises e ->
  data_callback self output input framecount =
    (Raise e, set_callback_generator self None, output).
Proof.
  intros capture_size duplex_size Hg Hc Hd Hraise. unfold data_callback.
  destruct (dev_class self).
  - unfold CaptureDevice_data_callback. fold capture_size.
    rewrite Hg, bytearray_nonneg, Hraise by exact Hc. reflexivity.
  - unfold PlaybackDevice_data_callback. rewrite Hg, Hraise. reflexivity.
  - unfold DuplexStream_data_callback. fold duplex_size.
    rewrite bytearray_nonneg, Hg, Hraise by exact Hd. reflexivity.
Qed.

Lemma routine_error_unbinds_witness :
  @data_callback sim_lib metered metered_capture one_frame_output [x0a; x0b] 1 =
    (Raise (TypeError "an integer is required"),
     set_callback_generator metered_capture None, one_frame_output).
Proof.
  apply (@routine_error_unbinds sim_lib metered metered_capture 0
           (TypeError "an integer is required") one_frame_output [x0a; x0b] 1).
  - reflexivity.
  - vm_compute. discriminate.
  - vm_compute. discriminate.
  - reflexivity.
Defined.

(** The same on a capture device whose routine raises whatever it is
    sent. *)
Example faulty_capture_raises :
  @data_callback sim_lib faulty faulty_capture one_frame_output [x0a; x0b; x0c; x0d] 1 =
    (Raise (ApplicationError 7), set_callback_generator faulty_capture None, one_frame_output).
Proof. reflexivity. Qed.

(** X14: the callback of a device without a bound routine does nothing:
    it returns normally and the device and the output are as before. *)
Theorem unbound_callback_is_noop {lib : NativeLib} {gens : Generators}
    (self : device) (output input : list byte) (framecount : Z) :
  callback_generator self = None ->
  0 <= self_sample_width self * capture_channels self * framecount ->
  data_callback self output input framecount = (Return tt, self, output).
Proof.
  intros Hg Hd. unfold data_callback.
  destruct (dev_class self).
  - unfold CaptureDevice_data_callback. rewrite Hg. reflexivity.
  - unfold PlaybackDevice_data_callback. rewrite Hg. reflexivity.
  - unfold DuplexStream_data_callback. rewrite bytearray_nonneg, Hg by exact Hd.
    reflexivity.
Qed.

Lemma unbound_callback_is_noop_witness :
  @data_callback sim_lib scripted idle_playback one_frame_output [] 1 =
    (Return tt, idle_playback, one_frame_output).
Proof.
  apply (@unbound_callback_is_noop sim_lib scripted idle_playback one_frame_output [] 1).
  - reflexivity.
  - cbn. lia.
Defined.

(** ** More on the device lifecycle *)

(** X15: a [start] that is refused changes nothing: on a device with a
    bound routine it raises [MiniaudioError] and the old binding and the
    native device are as before; on an unbound device an argument that
    is not a generator raises [TypeError] and the device stays unbound. *)
Theorem refused_start_changes_nothing {lib : NativeLib} {gens : Generators}
    (self : device) (cb : generator + pyval) :
  (forall g0, callback_generator self = Some g0 ->
     start self cb =
       (Raise (MiniaudioError "can't start an already started device" []), self)) /\
  (forall v, callback_generator self = None -> cb = inr v ->
     start self cb = (Raise (TypeError "callback must be a generator"), self)).
Proof.
  split.
  - intros g0 Hg. unfold start. rewrite Hg. reflexivity.
  - intros v Hg ->. unfold start. rewrite Hg. reflexivity.
Qed.

Lemma refused_start_changes_nothing_witness :
  @start sim_lib scripted sim_playback (inl []) =
    (Raise (MiniaudioError "can't start an already started device" []), sim_playback).
Proof.
  apply (proj1 (@refused_start_changes_nothing sim_lib scripted sim_playback (inl []))
           [eight_bytes]).
  reflexivity.
Defined.

(** X16: after [stop], whatever it reported, [start] binds the generator
    it is given: the binding afterwards is that generator, the error for
    an already started device is not raised, and a native device that is
    held has gone through the native stop and then the native start. *)
Theorem stop_then_start_rebinds {lib : NativeLib} {gens : Generators}
    (self : device) (g : generator) :
  let restarted := start (snd (stop self)) (inl g) in
  callback_generator (snd restarted) = Some g /\
  fst restarted <> Raise (MiniaudioError "can't start an already started device" []) /\
  _device (snd restarted) =
    match _device self with
    | Some d => Some (snd (ma_device_start (snd (ma_device_stop d))))
    | None => None
    end.
Proof.
  destruct self as [cls sw nch cch pch cg [d|]]; unfold stop, start; cbn.
  - destruct (ma_device_stop d) as [r d1]. cbn.
    destruct (r =? MA_SUCCESS); cbn;
      destruct (ma_device_start d1) as [r2 d2]; cbn;
      destruct (r2 =? MA_SUCCESS); cbn; repeat split; discriminate.
  - repeat split. discriminate.
Qed.

(** ** More on the bridge *)

(** X17: an invocation with a frame count other than 0 and user data that
    unpack to a registered identity runs the [data_callback] of the
    object registered under it: the result and the output are that
    callback's, the object is replaced by what the callback left, and
    every other object, the registry and the record of released native
    devices are as before. *)
Theorem bridge_changes_only_addressed_device {lib : NativeLib} {gens : Generators}
    (w : world) (dev : ma_device) (userdata output input : list byte)
    (framecount ref : Z) (obj : device) :
  framecount <> 0 ->
  pUserData dev = Some userdata ->
  _callback_data w !! unpack_q userdata = Some ref ->
  objects w !! ref = Some obj ->
  let ran := data_callback obj output input framecount in
  let bridged := internal_data_callback w dev output input framecount in
  fst (fst bridged) = fst (fst ran) /\
  snd bridged = snd ran /\
  objects (snd (fst bridged)) !! ref = Some (snd (fst ran)) /\
  (forall other, other <> ref ->
     objects (snd (fst bridged)) !! other = objects w !! other) /\
  _callback_data (snd (fst bridged)) = _callback_data w /\
  uninitialized (snd (fst bridged)) = uninitialized w.
Proof.
  intros Hf Hp Hreg Hobj ran bridged. subst bridged.
  unfold internal_data_callback. rewrite Hp. cbn.
  destruct (Z.eqb_spec framecount 0); [contradiction|]. cbn.
  rewrite Hreg, Hobj. fold ran.
  destruct ran as [[r obj'] output']. cbn.
  repeat split.
  - apply lookup_insert_eq.
  - intros other Hne. apply lookup_insert_ne. congruence.
Qed.

Lemma bridge_changes_only_addressed_device_witness :
  let ran := @data_callback sim_lib scripted bound_playback one_frame_output [] 1 in
  let bridged :=
    @internal_data_callback sim_lib scripted two_device_world sim_native_device
      one_frame_output [] 1 in
  fst (fst bridged) = fst (fst ran) /\
  snd bridged = snd ran /\
  objects (snd (fst bridged)) !! 0 = Some (snd (fst ran)) /\
  (forall other, other <> 0 ->
     objects (snd (fst bridged)) !! other = objects two_device_world !! other) /\
  _callback_data (snd (fst bridged)) = _callback_data two_device_world /\
  uninitialized (snd (fst bridged)) = uninitialized two_device_world.
Proof.
  apply (@bridge_changes_only_addressed_device sim_lib scripted two_device_world
           sim_native_device (repeat x00 8) one_frame_output [] 1 0 bound_playback).
  - discriminate.
  - reflexivity.
  - reflexivity.
  - reflexivity.
Defined.

(** X18: once a device is closed the bridge no longer reaches it: an
    invocation whose user data unpack to its identity raises [KeyError]
    and changes neither the state nor the output. *)
Theorem closed_device_is_unreachable {lib : NativeLib} {gens : Generators}
    (w : world) (self : Z) (obj : device) (dev : ma_device)
    (userdata output input : list byte) (framecount : Z) :
  objects w !! self = Some obj ->
  framecount <> 0 ->
  pUserData dev = Some userdata ->
  unpack_q userdata = self ->
  internal_data_callback (snd (close w self)) dev output input framecount =
    (Raise (KeyError self), snd (close w self), output).
Proof.
  intros Hobj Hf Hp Hid.
  assert (Hreg : _callback_data (snd (close w self)) !! self = None).
  { unfold close. rewrite Hobj.
    destruct (_device (set_callback_generator obj None)); cbn;
      (destruct (_callback_data w !! self) eqn:Hr; [apply lookup_delete_eq | exact Hr]). }
  subst self. apply bridge_looks_up_otherwise; assumption.
Qed.

Lemma closed_device_is_unreachable_witness :
  @internal_data_callback sim_lib scripted (snd (close two_device_world 0))
     sim_native_device one_frame_output [] 1 =
    (Raise (KeyError 0), snd (close two_device_world 0), one_frame_output).
Proof.
  apply (@closed_device_is_unreachable sim_lib scripted two_device_world 0 bound_playback
           sim_native_device (repeat x00 8) one_frame_output [] 1).
  - reflexivity.
  - discriminate.
  - reflexivity.
  - reflexivity.
Defined.

(** X19: [close] on one device leaves every other device object and
    every other entry of [_callback_data] as they were. *)
Theorem close_leaves_other_devices {lib : NativeLib} {gens : Generators}
    (w : world) (self other : Z) (obj : device) :
  objects w !! self = Some obj ->
  other <> self ->
  objects (snd (close w self)) !! other = objects w !! other /\
  _callback_data (snd (close w self)) !! other = _callback_data w !! other.
Proof.
  intros Hobj Hne. unfold close. rewrite Hobj.
  destruct (_device (set_callback_generator obj None)); cbn.
  - split; [apply lookup_insert_ne; congruence|].
    destruct (_callback_data w !! self); [apply lookup_delete_ne; congruence | reflexivity].
  - split; [apply lookup_insert_ne; congruence|].
    destruct (_callback_data w !! self); [apply lookup_delete_ne; congruence | reflexivity].
Qed.

Lemma close_leaves_other_devices_witness :
  objects (snd (close two_device_world 0)) !! 1 = objects two_device_world !! 1 /\
  _callback_data (snd (close two_device_world 0)) !! 1 = _callback_data two_device_world !! 1.
Proof.
  apply (@close_leaves_other_devices sim_lib scripted two_device_world 0 1 bound_playback).
  - reflexivity.
  - discriminate.
Defined.

(** ** More on the streaming generator *)

(** X6: a pull on a suspended [_samples_generator] either produces a
    chunk and leaves the generator suspended, or ends it (end of stream
    or an exception) with the decoder handed to [ma_decoder_uninit],
    after at most one read; a finished generator answers every further
    pull with the end of the stream and stays as it is. *)
Theorem pull_ends_with_uninit {lib : NativeLib} (f : samples_frame) (sent : pyval) :
  match sg_send (SgSuspended f) sent with
  | (Chunk _, g') => exists f', g' = SgSuspended f'
  | (_, g') =>
      (exists d, g' = SgFinished (ma_decoder_uninit d) /\
         (d = decoder f \/ exists n, d = snd (ma_decoder_read_pcm_frames (decoder f) n))) /\
      forall sent', sg_send g' sent' = (EndOfStream, g')
  end.
Proof.
  cbn. unfold sg_resume.
  destruct (py_or sent (frames_to_read f)) as [[|want| | | |]|e];
    try (split; [eexists; split; [reflexivity | left; reflexivity] | reflexivity]).
  destruct (want >? allocated_buffer_frames f);
    [split; [eexists; split; [reflexivity | left; reflexivity] | reflexivity]|].
  destruct (cffi_unsigned 64 want) as [n0|e];
    [|split; [eexists; split; [reflexivity | left; reflexivity] | reflexivity]].
  destruct (ma_decoder_read_pcm_frames (decoder f) n0) as [[num written] d'] eqn:Hread.
  assert (Hd : d' = snd (ma_decoder_read_pcm_frames (decoder f) n0)) by (rewrite Hread; reflexivity).
  destruct (num <=? 0);
    [split; [eexists; split; [reflexivity | right; eexists; exact Hd] | reflexivity]|].
  destruct (frombytes _ _);
    [eexists; reflexivity
    |split; [eexists; split; [reflexivity | right; eexists; exact Hd] | reflexivity]].
Qed.

(** A pull that produced a chunk keeps the prototype array. *)
Lemma sg_resume_chunk_proto {lib : NativeLib} (f f' : samples_frame) (sent : pyval)
    (chunk : array) :
  sg_resume f sent = (Chunk chunk, SgSuspended f') ->
  samples_proto f' = samples_proto f /\ sg_sample_width f' = sg_sample_width f.
Proof.
  unfold sg_resume.
  destruct (py_or sent (frames_to_read f)) as [[| z | | | |]|e]; try discriminate.
  destruct (z >? allocated_buffer_frames f); [discriminate|].
  destruct (cffi_unsigned 64 z) as [n0|e]; [|discriminate].
  destruct (ma_decoder_read_pcm_frames (decoder f) n0) as [[num written] d'].
  destruct (num <=? 0); [discriminate|].
  destruct (frombytes _ _); [|discriminate].
  intros [= _ <-]. cbn. auto.
Qed.

(** The prototype array of a generator run to its first [yield] has items
    of the sample width, which is 1, 2 or 4. *)
Lemma start_samples_generator_proto {lib : NativeLib} (n nch : Z) (fmt : ma_format)
    (d : ma_decoder) (f : samples_frame) :
  start_samples_generator (SgCreated n nch fmt d) = Return (SgSuspended f) ->
  itemsize (samples_proto f) = sg_sample_width f /\ 0 < sg_sample_width f.
Proof.
  unfold start_samples_generator, sg_send.
  destruct (_decode_ma_format fmt) as [[w proto]|e] eqn:Hfmt; [|discriminate].
  destruct (_decode_ma_format_proto fmt w proto Hfmt) as [_ Hitem].
  pose proof (_decode_ma_format_width fmt w proto Hfmt) as Hw.
  destruct (ffi_new_int8 _); [|discriminate].
  destruct (array_len proto =? 0); [|discriminate].
  intros [= <-]. cbn. split; [exact Hitem | lia].
Qed.

(** The same holds of every generator a consumer holds of a stream. *)
Lemma stream_state_proto {lib : NativeLib} (n : Z) (g : samples_generator) :
  stream_state n g ->
  forall f, g = SgSuspended f ->
    itemsize (samples_proto f) = sg_sample_width f /\ 0 < sg_sample_width f.
Proof.
  induction 1 as [filename fmt nch rate g Hfile | data fmt nch rate g Hmem
                 | g sent chunk g' Hs IH Hpull]; intros f ->.
  - unfold stream_file in Hfile.
    destruct (_get_filename_bytes filename) as [fb|e]; [cbn in Hfile|discriminate].
    destruct (cffi_unsigned 32 nch); [cbn in Hfile|discriminate].
    destruct (cffi_unsigned 32 rate); [cbn in Hfile|discriminate].
    destruct (ma_decoder_init_file fb fmt nch rate) as [r d].
    destruct (negb (r =? MA_SUCCESS)); [discriminate|].
    eapply start_samples_generator_proto. exact Hfile.
  - unfold stream_memory in Hmem.
    destruct (cffi_unsigned 32 nch); [cbn in Hmem|discriminate].
    destruct (cffi_unsigned 32 rate); [cbn in Hmem|discriminate].
    destruct (ma_decoder_init_memory data fmt nch rate) as [r d].
    destruct (negb (r =? MA_SUCCESS)); [discriminate|].
    eapply start_samples_generator_proto. exact Hmem.
  - destruct (stream_state_frame n g Hs) as (f0 & -> & _). cbn in Hpull.
    destruct (sg_resume_chunk_proto f0 f sent chunk Hpull) as [Hp Hw].
    rewrite Hp, Hw. apply (IH f0 eq_refl).
Qed.

(** X5: on a stream, a pull whose request is within the capacity and for
    which the decoder reports [num > 0] frames, having written
    [num * sample_width * nchannels] bytes, yields a fresh array that
    holds exactly the bytes written, [num * nchannels] samples; the
    generator stays a stream and holds the decoder as the read left it. *)
Theorem pull_yields_decoded_frames {lib : NativeLib} (n : Z) (f : samples_frame)
    (sent : pyval) (want num : Z) (written : list byte) (d' : ma_decoder) :
  stream_state n (SgSuspended f) ->
  py_or sent n = Return (PyInt want) ->
  0 <= want <= Z.max n 16384 ->
  want < 2 ^ 64 ->
  ma_decoder_read_pcm_frames (decoder f) want = (num, written, d') ->
  0 < num ->
  blen written = num * sg_sample_width f * sg_nchannels f ->
  exists chunk g',
    sg_send (SgSuspended f) sent = (Chunk chunk, g') /\
    raw chunk = written /\
    array_len chunk = num * sg_nchannels f /\
    decoder_of g' = d' /\
    stream_state n g'.
Proof.
  intros Hs Hwant [Hw0 Hwmax] Hw64 Hread Hnum Hlen.
  destruct (stream_state_frame n _ Hs) as (f0 & [= <-] & Hn & Ha).
  destruct (stream_state_proto n _ Hs f eq_refl) as [Hitem Hsw].
  assert (Hsend : exists chunk g',
            sg_send (SgSuspended f) sent = (Chunk chunk, g') /\
            raw chunk = written /\ array_len chunk = num * sg_nchannels f /\
            decoder_of g' = d').
  { cbn. unfold sg_resume. rewrite Hn, Hwant.
    destruct (Z.gtb_spec want (allocated_buffer_frames f)); [lia|].
    unfold cffi_unsigned.
    destruct (Z.leb_spec 0 want); [|lia]. destruct (Z.ltb_spec want (2 ^ 64)); [|lia].
    cbn [andb]. rewrite Hread.
    destruct (Z.leb_spec num 0); [lia|].
    rewrite memmove_whole.
    assert (Hcount : Z.to_nat (num * sg_sample_width f * sg_nchannels f) = length written)
      by (rewrite <- Hlen; unfold blen; lia).
    rewrite Hcount, firstn_app, firstn_all, Nat.sub_diag, firstn_O, app_nil_r.
    unfold frombytes. cbn [itemsize typecode raw].
    assert (Hmod : blen written mod itemsize (samples_proto f) = 0).
    { rewrite Hlen, Hitem.
      replace (num * sg_sample_width f * sg_nchannels f)
        with (num * sg_nchannels f * sg_sample_width f) by lia.
      apply Z.mod_mul. lia. }
    rewrite Hmod. cbn.
    eexists. eexists. split; [reflexivity|]. cbn.
    split; [reflexivity|]. split; [|reflexivity].
    unfold array_len. cbn. rewrite Hlen, Hitem.
    replace (num * sg_sample_width f * sg_nchannels f)
      with (num * sg_nchannels f * sg_sample_width f) by lia.
    apply Z.div_mul. lia. }
  destruct Hsend as (chunk & g' & Hsend & Hraw & Halen & Hdec).
  exists chunk, g'. repeat split; try assumption.
  eapply stream_state_pull; [exact Hs | exact Hsend].
Qed.

Lemma pull_yields_decoded_frames_witness :
  match @stream_file sim_lib "take1.wav" ma_format_u8 1 44100 1024 with
  | Return (SgSuspended f) =>
      exists chunk g',
        @sg_send sim_lib (SgSuspended f) (PyInt 2) = (Chunk chunk, g') /\
        raw chunk = [x01; x01] /\
        array_len chunk = 2 * sg_nchannels f /\
        decoder_of g' = SimDecoder [x01] 1 false /\
        stream_state 1024 g'
  | _ => False
  end.
Proof.
  destruct (@stream_file sim_lib "take1.wav" ma_format_u8 1 44100 1024)
    as [[n0 nch0 fmt0 d0 | f | d0] | e] eqn:E;
    try (vm_compute in E; discriminate E).
  assert (Hf : decoder f = SimDecoder [x01; x01; x01] 1 false /\
               sg_sample_width f = 1 /\ sg_nchannels f = 1).
  { vm_compute in E. injection E as <-. repeat split; reflexivity. }
  destruct Hf as (Hd & Hsw & Hnch).
  apply (@pull_yields_decoded_frames sim_lib 1024 f (PyInt 2) 2 2 [x01; x01]
           (SimDecoder [x01] 1 false)).
  - eapply stream_state_file. exact E.
  - reflexivity.
  - lia.
  - lia.
  - rewrite Hd. reflexivity.
  - lia.
  - rewrite Hsw, Hnch. reflexivity.
Defined.

(** X8: on a stream with default chunk size [n], [next(g)] and
    [g.send(0)] are the same pull as [g.send(n)]: a sent 0 does not ask
    for zero frames. *)
Theorem default_pull_is_configured_size {lib : NativeLib} (n : Z) (g : samples_generator) :
  stream_state n g ->
  sg_send g PyNone = sg_send g (PyInt n) /\
  sg_send g (PyInt 0) = sg_send g (PyInt n).
Proof.
  intros Hs. destruct (stream_state_frame n g Hs) as (f & -> & Hn & _).
  cbn. unfold sg_resume, py_or. cbn. rewrite Hn.
  destruct (n =? 0); split; reflexivity.
Qed.

Lemma default_pull_is_configured_size_witness :
  match @stream_file sim_lib "take1.wav" ma_format_u8 1 44100 1024 with
  | Return g =>
      @sg_send sim_lib g PyNone = sg_send g (PyInt 1024) /\
      @sg_send sim_lib g (PyInt 0) = sg_send g (PyInt 1024)
  | Raise _ => False
  end.
Proof.
  destruct (@stream_file sim_lib "take1.wav" ma_format_u8 1 44100 1024) as [g|e] eqn:E.
  - apply (@default_pull_is_configured_size sim_lib 1024 g).
    eapply stream_state_file. exact E.
  - vm_compute in E. discriminate E.
Defined.

(** X7: [stream_file] asked for a sample format [_decode_ma_format] does
    not support (unknown or 24-bit), on a file that exists and that the
    native decoder opens, raises [ValueError]; the generator fails before
    its [try] block, so the opened decoder is left as it is, without a
    call of [ma_decoder_uninit]. *)
Theorem unsupported_format_leaves_decoder {lib : NativeLib} (filename : string)
    (fmt : ma_format) (nchannels rate n : Z) (d : ma_decoder) :
  fmt = ma_format_unknown \/ fmt = ma_format_s24 ->
  os_path_isfile (os_path_expanduser filename) = true ->
  0 <= nchannels < 2 ^ 32 ->
  0 <= rate < 2 ^ 32 ->
  ma_decoder_init_file (os_path_expanduser filename) fmt nchannels rate = (MA_SUCCESS, d) ->
  stream_file filename fmt nchannels rate n =
    Raise (ValueError "unsupported miniaudio sample format" [ArgFormat fmt]) /\
  sg_send (SgCreated n nchannels fmt d) PyNone =
    (Failed (ValueError "unsupported miniaudio sample format" [ArgFormat fmt]), SgFinished d).
Proof.
  intros Hfmt Hfile [Hc0 Hc1] [Hr0 Hr1] Hinit.
  assert (Hsend : sg_send (SgCreated n nchannels fmt d) PyNone =
            (Failed (ValueError "unsupported miniaudio sample format" [ArgFormat fmt]),
             SgFinished d))
    by (destruct Hfmt as [-> | ->]; reflexivity).
  split; [|exact Hsend].
  unfold stream_file, _get_filename_bytes. rewrite Hfile. cbn.
  unfold cffi_unsigned.
  destruct (Z.leb_spec 0 nchannels); [|lia].
  destruct (Z.ltb_spec nchannels (2 ^ 32)); [|lia].
  destruct (Z.leb_spec 0 rate); [|lia].
  destruct (Z.ltb_spec rate (2 ^ 32)); [|lia].
  cbn. rewrite Hinit. cbn.
  unfold start_samples_generator. rewrite Hsend. reflexivity.
Qed.

Lemma unsupported_format_leaves_decoder_witness :
  @stream_file sim_lib "take1.wav" ma_format_s24 2 44100 1024 =
    Raise (ValueError "unsupported miniaudio sample format" [ArgFormat ma_format_s24]) /\
  @sg_send sim_lib (SgCreated 1024 2 ma_format_s24 (snd (sim_open ma_format_s24 2) : @ma_decoder sim_lib)) PyNone =
    (Failed (ValueError "unsupported miniaudio sample format" [ArgFormat ma_format_s24]),
     SgFinished (snd (sim_open ma_format_s24 2) : @ma_decoder sim_lib)).
Proof.
  apply (@unsupported_format_leaves_decoder sim_lib "take1.wav" ma_format_s24 2 44100 1024
           (snd (sim_open ma_format_s24 2) : @ma_decoder sim_lib)).
  - right. reflexivity.
  - reflexivity.
  - lia.
  - lia.
  - reflexivity.
Defined.

(** ** More on formats, whole-file decoding and dispatch *)

(** X1: for every format [_decode_ma_format] accepts, the array it hands
    out is empty and has items of the reported width, and
    [_ma_format_from_width] maps that width, with the float flag set
    exactly for the float format, back to the format. *)
Theorem decode_ma_format_round_trip (f : ma_format) (w : Z) (a : array) :
  _decode_ma_format f = Return (w, a) ->
  raw a = [] /\ itemsize a = w /\
  _ma_format_from_width w (ma_format_eqb f ma_format_f32) = Return f.
Proof.
  destruct f; cbn; intros [= <- <-] || discriminate; repeat split; reflexivity.
Qed.

Lemma decode_ma_format_round_trip_witness :
  raw (Array "h" 2 []) = [] /\ itemsize (Array "h" 2 []) = 2 /\
  _ma_format_from_width 2 (ma_format_eqb ma_format_s16 ma_format_f32) = Return ma_format_s16.
Proof. apply (decode_ma_format_round_trip ma_format_s16 2 (Array "h" 2 [])). reflexivity. Defined.

(** X3: the failures of [decode_file], in the order the code meets them:
    an unsupported sample format is raised first, before the file system
    or the decoder are consulted; then a name that is not a file raises
    [FileNotFoundError]; then a native decode that does not report
    success raises [DecodeError] carrying the native result code. *)
Theorem decode_file_failures {lib : NativeLib} (filename : string) (fmt : ma_format)
    (nchannels rate : Z) :
  (forall e, _decode_ma_format fmt = Raise e ->
     decode_file filename fmt nchannels rate = Raise e) /\
  (forall w a, _decode_ma_format fmt = Return (w, a) ->
     os_path_isfile (os_path_expanduser filename) = false ->
     decode_file filename fmt nchannels rate = Raise (FileNotFoundError filename)) /\
  (forall w a r frames data, _decode_ma_format fmt = Return (w, a) ->
     os_path_isfile (os_path_expanduser filename) = true ->
     0 <= nchannels < 2 ^ 32 -> 0 <= rate < 2 ^ 32 ->
     ma_decode_file (os_path_expanduser filename) fmt nchannels rate = (r, frames, data) ->
     r <> MA_SUCCESS ->
     decode_file filename fmt nchannels rate =
       Raise (DecodeError "failed to decode file" [ArgInt r])).
Proof.
  split; [|split].
  - intros e He. unfold decode_file. rewrite He. reflexivity.
  - intros w a Hfmt Hfile. unfold decode_file, _get_filename_bytes.
    rewrite Hfmt, Hfile. reflexivity.
  - intros w a r frames data Hfmt Hfile [Hc0 Hc1] [Hr0 Hr1] Hnative Hr.
    unfold decode_file, _get_filename_bytes, cffi_unsigned.
    rewrite Hfmt, Hfile. cbn.
    destruct (Z.leb_spec 0 nchannels); [|lia].
    destruct (Z.ltb_spec nchannels (2 ^ 32)); [|lia].
    destruct (Z.leb_spec 0 rate); [|lia].
    destruct (Z.ltb_spec rate (2 ^ 32)); [|lia].
    cbn. rewrite Hnative.
    destruct (Z.eqb_spec r MA_SUCCESS); [contradiction | reflexivity].
Qed.

Lemma decode_file_failures_witness :
  @decode_file sim_lib "take1.wav" ma_format_s24 2 44100 =
    Raise (ValueError "unsupported miniaudio sample format" [ArgFormat ma_format_s24]).
Proof.
  apply (proj1 (@decode_file_failures sim_lib "take1.wav" ma_format_s24 2 44100)).
  reflexivity.
Defined.

Lemma rfind_from_absent (c : ascii) (s : string) (i found : Z) :
  (forall k, String.get k s <> Some c) -> rfind_from c s i found = found.
Proof.
  revert i found. induction s as [|a s IH]; intros i found Habs; cbn; [reflexivity|].
  destruct (Ascii.eqb_spec a c) as [->|_].
  - exfalso. apply (Habs 0%nat). reflexivity.
  - apply IH. intros k. apply (Habs (S k)).
Qed.

Lemma rfind_from_lower_bound (c : ascii) (s : string) (i found : Z) :
  -1 <= found -> 0 <= i -> -1 <= rfind_from c s i found.
Proof.
  revert i found. induction s as [|a s IH]; intros i found Hf Hi; cbn; [exact Hf|].
  apply IH; [destruct (Ascii.eqb a c); lia | lia].
Qed.

(** X4: a file name without any dot has no extension, so [get_file_info]
    and [read_file] both raise [DecodeError] for it, whatever the
    codecs. *)
Theorem name_without_dot_is_unsupported {lib : NativeLib} {codecs : Codecs}
    (filename : string) :
  (forall k, String.get k filename <> Some "."%char) ->
  get_file_info filename = Raise (DecodeError "unsupported file format" []) /\
  read_file filename = Raise (DecodeError "unsupported file format" []).
Proof.
  intros Habs.
  assert (Hext : splitext filename = (filename, EmptyString)).
  { unfold splitext, rfind. rewrite (rfind_from_absent "." filename 0 (-1) Habs).
    pose proof (rfind_from_lower_bound "/" filename 0 (-1)) as Hsep.
    destruct (Z.gtb_spec (-1) (rfind_from "/" filename 0 (-1))); [lia | reflexivity]. }
  unfold get_file_info, read_file. rewrite Hext. split; reflexivity.
Qed.

Lemma name_without_dot_is_unsupported_witness :
  @get_file_info sim_lib sim_codecs "README" = Raise (DecodeError "unsupported file format" []) /\
  @read_file sim_lib sim_codecs "README" = Raise (DecodeError "unsupported file format" []).
Proof.
  apply (@name_without_dot_is_unsupported sim_lib sim_codecs "README").
  intros [|[|[|[|[|[|k]]]]]]; cbn; discriminate.
Defined.

(** ** WavFileReadStream *)

Lemma bytes_upto_after (b : list byte) (i : Z) : bytes_upto b i ++ bytes_after b i = b.
Proof. unfold bytes_upto, bytes_after. destruct (i <? 0); apply firstn_skipn. Qed.

(** The loop only appends to the buffer.  When it ends normally, either
    the buffer holds at least [amount] bytes, or [StopIteration] was
    caught: then the generator object is finished and the buffer is
    shorter than [amount]. *)
Lemma read_loop_result {gens : Generators} (fuel : nat) (g g' : option generator)
    (buf buf' : list byte) (amount : Z) (r : result unit) (stopped : bool) :
  read_loop fuel g buf amount = Some (r, g', buf', stopped) ->
  (exists pulled, buf' = buf ++ pulled) /\
  (r = Return tt ->
   if stopped then g' = None /\ blen buf' < amount else amount <= blen buf').
Proof.
  revert g buf. induction fuel as [|fuel IH]; intros g buf; cbn.
  - destruct (Z.ltb_spec (blen buf) amount); [discriminate|].
    intros [= <- <- <- <-]. split; [exists []; symmetry; apply app_nil_r|].
    intros _. assumption.
  - destruct (Z.ltb_spec (blen buf) amount) as [Hlt|Hge].
    + destruct g as [g|].
      * destruct (gen_send g PyNone) as [v g1| |e].
        -- destruct (_bytes_from_generator_samples v) as [view|e].
           ++ destruct (buffer_of view) as [b|].
              ** intros Hrec. destruct (IH _ _ Hrec) as [[pulled ->] Hend].
                 split; [exists (b ++ pulled); symmetry; apply app_assoc | exact Hend].
              ** intros [= <- <- <- <-]. split; [exists []; symmetry; apply app_nil_r|].
                 discriminate.
           ++ intros [= <- <- <- <-]. split; [exists []; symmetry; apply app_nil_r|].
              discriminate.
        -- intros [= <- <- <- <-]. split; [exists []; symmetry; apply app_nil_r|].
           intros _. split; [reflexivity | exact Hlt].
        -- intros [= <- <- <- <-]. split; [exists []; symmetry; apply app_nil_r|].
           discriminate.
      * intros [= <- <- <- <-]. split; [exists []; symmetry; apply app_nil_r|].
        intros _. split; [reflexivity | exact Hlt].
    + intros [= <- <- <- <-]. split; [exists []; symmetry; apply app_nil_r|].
      intros _. assumption.
Qed.

(** A loop that ends normally on a stream without a generator object
    pulls nothing. *)
Lemma read_loop_finished {gens : Generators} (fuel : nat) (g' : option generator)
    (buf buf' : list byte) (amount : Z) (r : result unit) (stopped : bool) :
  read_loop fuel None buf amount = Some (r, g', buf', stopped) ->
  buf' = buf /\ g' = None.
Proof.
  destruct fuel; cbn; destruct (blen buf <? amount); try discriminate;
    intros [= <- <- <- <-]; split; reflexivity.
Qed.

(** What a loop that ends normally has appended is what the generator
    yielded, chunk after chunk in the order of the pulls, each chunk
    once; the generator is left where the last pull left it, or is
    finished when that pull ended it. *)
Lemma read_loop_pulls {gens : Generators} (fuel : nat) (g : generator)
    (g' : option generator) (buf buf' : list byte) (amount : Z) (stopped : bool) :
  read_loop fuel (Some g) buf amount = Some (Return tt, g', buf', stopped) ->
  exists pulled gk,
    buf' = buf ++ pulled /\
    yields_bytes g pulled gk /\
    (g' = Some gk \/ (g' = None /\ gen_send gk PyNone = Stops)).
Proof.
  revert g buf. induction fuel as [|fuel IH]; intros g buf; cbn.
  - destruct (blen buf <? amount); [discriminate|].
    intros [= <- <- <-]. exists [], g.
    split; [symmetry; apply app_nil_r|]. split; [constructor | left; reflexivity].
  - destruct (blen buf <? amount).
    + destruct (gen_send g PyNone) as [v g1| |e] eqn:Hsend.
      * destruct (_bytes_from_generator_samples v) as [view|e] eqn:Hview; [|discriminate].
        destruct (buffer_of view) as [b|] eqn:Hb; [|discriminate].
        intros Hrec. destruct (IH _ _ Hrec) as (pulled & gk & -> & Hys & Hend).
        exists (b ++ pulled), gk. split; [symmetry; apply app_assoc|].
        split; [|exact Hend].
        eapply yields_chunk; eassumption.
      * intros [= <- <- <-]. exists [], g.
        split; [symmetry; apply app_nil_r|].
        split; [constructor | right; split; [reflexivity | exact Hsend]].
      * discriminate.
    + intros [= <- <- <-]. exists [], g.
      split; [symmetry; apply app_nil_r|]. split; [constructor | left; reflexivity].
Qed.

(** X21: a [read(amount)] that returns, for [amount >= 0], returns at
    most [amount] bytes: on a stream that had not reached [max_bytes],
    the first [amount] bytes of what was buffered before followed by what
    was pulled from the generator.  What it returns followed by what
    stays buffered is all of that, and what was
    pulled is what the generator yielded, chunk after chunk in the order
    of the pulls, each chunk once: nothing is lost, duplicated or
    reordered.  The stream keeps the generator as the last pull left it,
    or no generator when that pull ended it. *)
Theorem read_is_bounded_prefix {gens : Generators} (fuel : nat)
    (self self' : WavFileReadStream) (amount : Z) (r : list byte) :
  read fuel self amount = Some (Return r, self') ->
  0 <= amount ->
  blen r <= amount /\
  exists pulled,
    r ++ buffered self' = buffered self ++ pulled /\
    (bytes_done self < max_bytes self ->
     r = firstn (Z.to_nat amount) (buffered self ++ pulled)) /\
    match sample_gen self with
    | None => pulled = [] /\ sample_gen self' = None
    | Some g =>
        exists gk,
          yields_bytes g pulled gk /\
          (sample_gen self' = Some gk \/
           (sample_gen self' = None /\ gen_send gk PyNone = Stops))
    end.
Proof.
  unfold read. intros Hread Hamount.
  destruct (Z.geb_spec (bytes_done self) (max_bytes self)).
  { injection Hread as <- <-. split; [unfold blen; cbn; lia|].
    exists []. cbn. split; [symmetry; apply app_nil_r|].
    split; [lia|].
    destruct (sample_gen self) as [g|]; [|split; reflexivity].
    exists g. split; [constructor | left; reflexivity]. }
  destruct (read_loop fuel (sample_gen self) (buffered self) amount)
    as [[[[res g'] buf] stopped]|] eqn:Hloop; [|discriminate].
  destruct res as [[]|e]; [|discriminate].
  injection Hread as <- <-. cbn.
  assert (Hupto : bytes_upto buf amount = firstn (Z.to_nat amount) buf)
    by (unfold bytes_upto; destruct (Z.ltb_spec amount 0); [lia | reflexivity]).
  split.
  - rewrite Hupto. unfold blen. rewrite length_firstn. lia.
  - destruct (sample_gen self) as [g|].
    + destruct (read_loop_pulls _ _ _ _ _ _ _ Hloop) as (pulled & gk & -> & Hys & Hend).
      exists pulled. split; [apply bytes_upto_after|]. split; [intros _; exact Hupto|].
      exists gk. split; assumption.
    + destruct (read_loop_finished _ _ _ _ _ _ _ Hloop) as [-> ->].
      exists []. rewrite app_nil_r. split; [apply bytes_upto_after|].
      split; [intros _; exact Hupto|]. split; reflexivity.
Qed.

Lemma read_is_bounded_prefix_witness :
  blen [x52; x49; x46; x46; x01; x02] <= 6 /\
  exists pulled,
    [x52; x49; x46; x46; x01; x02] ++ [x03; x04] = buffered sim_wav_stream ++ pulled /\
    (bytes_done sim_wav_stream < max_bytes sim_wav_stream ->
     [x52; x49; x46; x46; x01; x02] =
       firstn (Z.to_nat 6) (buffered sim_wav_stream ++ pulled)) /\
    exists gk,
      @yields_bytes scripted [four_bytes; eight_bytes] pulled gk /\
      (Some [eight_bytes] = Some gk \/
       (Some [eight_bytes] = None /\ @gen_send scripted gk PyNone = Stops)).
Proof.
  apply (@read_is_bounded_prefix scripted 5 sim_wav_stream
           (MkWavFileReadStream scripted (Some [eight_bytes]) [x03; x04] 6 sys_maxsize) 6).
  - reflexivity.
  - lia.
Defined.

(** X22: a [read(amount)] that returns fewer than [amount] bytes (on a
    stream that had not reached [max_bytes]) has seen the generator end:
    nothing stays buffered, the generator object is finished, and, when
    [max_bytes] is at most [sys.maxsize], every later [read] returns the
    empty bytes and leaves the stream as it is. *)
Theorem short_read_means_exhausted {gens : Generators} (fuel : nat)
    (self self' : WavFileReadStream) (amount : Z) (r : list byte) :
  read fuel self amount = Some (Return r, self') ->
  bytes_done self < max_bytes self ->
  0 <= amount ->
  blen r < amount ->
  buffered self' = [] /\
  sample_gen self' = None /\
  (max_bytes self <= sys_maxsize ->
   forall fuel' amount', read fuel' self' amount' = Some (Return [], self')).
Proof.
  unfold read at 1. intros Hread Hdone Hamount Hshort.
  destruct (Z.geb_spec (bytes_done self) (max_bytes self)); [lia|].
  destruct (read_loop fuel (sample_gen self) (buffered self) amount)
    as [[[[res g] buf] stopped]|] eqn:Hloop; [|discriminate].
  destruct (read_loop_result _ _ _ _ _ _ _ _ Hloop) as [_ Hend].
  destruct res as [[]|e]; [|discriminate].
  specialize (Hend eq_refl).
  injection Hread as <- <-. cbn in *.
  unfold bytes_upto, bytes_after, blen in *.
  destruct (Z.ltb_spec amount 0); [lia|].
  destruct stopped.
  - destruct Hend as [-> Hlt].
    split; [apply skipn_all2; lia|]. split; [reflexivity|].
    intros Hmax fuel' amount'. unfold read. cbn.
    destruct (Z.geb_spec (sys_maxsize + Z.of_nat (length (firstn (Z.to_nat amount) buf)))
                (max_bytes self)); [reflexivity | lia].
  - rewrite length_firstn in Hshort. lia.
Qed.

Lemma short_read_means_exhausted_witness :
  buffered (MkWavFileReadStream scripted None [] (sys_maxsize + 16) sys_maxsize) = [] /\
  sample_gen (MkWavFileReadStream scripted None [] (sys_maxsize + 16) sys_maxsize) = None /\
  (max_bytes sim_wav_stream <= sys_maxsize ->
   forall fuel' amount',
     read fuel' (MkWavFileReadStream scripted None [] (sys_maxsize + 16) sys_maxsize) amount'
     = Some (Return [], MkWavFileReadStream scripted None [] (sys_maxsize + 16) sys_maxsize)).
Proof.
  apply (@short_read_means_exhausted scripted 5 sim_wav_stream
           (MkWavFileReadStream scripted None [] (sys_maxsize + 16) sys_maxsize) 100
           ([x52; x49; x46; x46; x01; x02; x03; x04] ++ repeat x01 8)).
  - reflexivity.
  - reflexivity.
  - lia.
  - reflexivity.
Defined.

Lemma read_loop_terminates {gens : Generators} (P : generator -> Prop) (fuel : nat)
    (g : option generator) (buf : list byte) (amount : Z) :
  productive P ->
  (forall g0, g = Some g0 -> P g0) ->
  amount - blen buf <= Z.of_nat fuel ->
  exists out, read_loop fuel g buf amount = Some out.
Proof.
  intros Hprod. revert g buf. induction fuel as [|fuel IH]; intros g buf Hg Hfuel; cbn.
  - destruct (Z.ltb_spec (blen buf) amount); [lia | eauto].
  - destruct (Z.ltb_spec (blen buf) amount); [|eauto].
    destruct g as [g|]; [|eauto].
    pose proof (Hprod g (Hg g eq_refl)) as Hstep.
    destruct (gen_send g PyNone) as [v g1| |e]; [|eauto|eauto].
    destruct Hstep as [Hg1 (view & b & -> & -> & Hb)].
    apply IH; [intros g0 [= <-]; exact Hg1|].
    unfold blen in *. rewrite length_app.
    destruct b; [contradiction|]. cbn [length]. lia.
Qed.

(** X23: [read(amount)] returns when the generator never yields an empty
    or non-bytes payload: at most [amount - len(buffered)] turns of the
    loop are needed, each one adds at least one byte. *)
Theorem read_terminates {gens : Generators} (P : generator -> Prop) (fuel : nat)
    (self : WavFileReadStream) (amount : Z) :
  productive P ->
  (forall g, sample_gen self = Some g -> P g) ->
  amount - blen (buffered self) <= Z.of_nat fuel ->
  exists out, read fuel self amount = Some out.
Proof.
  intros Hprod Hg Hfuel. unfold read.
  destruct (bytes_done self >=? max_bytes self); [eauto|].
  destruct (read_loop_terminates P fuel (sample_gen self) (buffered self) amount
              Hprod Hg Hfuel) as [[[[res g'] buf] stopped] ->].
  destruct res; eauto.
Qed.

Lemma read_terminates_witness :
  exists out, @read scripted 96 sim_wav_stream 100 = Some out.
Proof.
  apply (@read_terminates scripted
           (Forall (fun v => exists view b,
                      _bytes_from_generator_samples v = Return view /\
                      buffer_of view = Some b /\ b <> []))
           96 sim_wav_stream 100).
  - intros g Hall. cbn. destruct g as [|v rest]; [exact I|].
    inversion Hall as [|v0 l0 Hv Hrest]; subst. split; assumption.
  - intros g [= <-].
    repeat constructor; eexists; eexists;
      (split; [reflexivity | split; [reflexivity | discriminate]]).
  - vm_compute. discriminate.
Defined.

(** ** File information *)

(** X24: [flac_get_file_info] on an existing file the decoder opens, with
    a sample rate other than 0: the decoder is closed once, whatever
    happens; for 8, 16 or 32 bits per sample (width 1, 2, 4) the info is
    returned with that width, the format of that width and the struct's
    channels, rate and frame count; for any other depth, such as 24 bits,
    it raises [ValueError] for the unsupported width. *)
Theorem flac_info_width {lib : NativeLib} {dr : DrLibs} (filename : string) (flac : drflac) :
  os_path_isfile (os_path_expanduser filename) = true ->
  drflac_open_file (os_path_expanduser filename) = Some flac ->
  flac_sampleRate flac <> 0 ->
  let w := flac_bitsPerSample flac / 8 in
  snd (Info.flac_get_file_info filename) = [drflac_close flac] /\
  (w = 1 \/ w = 2 \/ w = 4 ->
   exists info,
     fst (Info.flac_get_file_info filename) = Return info /\
     info_file_format info = "flac"%string /\
     info_sample_width info = w /\
     _ma_format_from_width w false = Return (info_sample_format info) /\
     info_nchannels info = flac_channels flac /\
     info_sample_rate info = flac_sampleRate flac /\
     info_num_frames info = flac_totalPCMFrameCount flac /\
     info_max_frame_size info = flac_maxBlockSize flac) /\
  (w <> 1 -> w <> 2 -> w <> 4 ->
   fst (Info.flac_get_file_info filename) =
     Raise (ValueError "unsupported sample_width" [ArgInt w])).
Proof.
  intros Hfile Hopen Hrate w.
  unfold Info.flac_get_file_info, _get_filename_bytes. rewrite Hfile. cbn.
  rewrite Hopen. cbn. fold w.
  destruct (Z.eqb_spec (flac_sampleRate flac) 0); [contradiction|].
  split; [reflexivity|]. split.
  - intros [Hw | [Hw | Hw]]; rewrite Hw; cbn; eexists; repeat split.
  - intros H1 H2 H4. unfold _ma_format_from_width.
    destruct (Z.eqb_spec w 1); [contradiction|].
    destruct (Z.eqb_spec w 2); [contradiction|].
    destruct (Z.eqb_spec w 4); [contradiction|].
    reflexivity.
Qed.

Lemma flac_info_width_witness :
  snd (@Info.flac_get_file_info sim_lib sim_dr "take1.flac") =
    [drflac_close (MkDrflac 2 44100 24 44100 4096)] /\
  fst (@Info.flac_get_file_info sim_lib sim_dr "take1.flac") =
    Raise (ValueError "unsupported sample_width" [ArgInt 3]).
Proof.
  destruct (@flac_info_width sim_lib sim_dr "take1.flac" (MkDrflac 2 44100 24 44100 4096))
    as (Hclose & _ & Hraise); try reflexivity; try discriminate.
  split; [exact Hclose|]. apply Hraise; discriminate.
Defined.

(** X25: [wav_get_file_info] on an existing file the decoder opens, with
    a sample rate other than 0: the decoder is closed once, whatever
    happens; for 8, 16 or 32 bits per sample the info is returned with
    that width, the format of that width, the struct's channels, rate and
    frame count, and a maximum frame size of 0; for any other depth, such
    as 24 bits, it raises [ValueError] for the unsupported width. *)
Theorem wav_info_width {lib : NativeLib} {dr : DrLibs} (filename : string) (wav : drwav) :
  os_path_isfile (os_path_expanduser filename) = true ->
  drwav_open_file (os_path_expanduser filename) = Some wav ->
  wav_sampleRate wav <> 0 ->
  let w := wav_bitsPerSample wav / 8 in
  snd (Info.wav_get_file_info filename) = [drwav_close wav] /\
  (w = 1 \/ w = 2 \/ w = 4 ->
   exists info,
     fst (Info.wav_get_file_info filename) = Return info /\
     info_file_format info = "wav"%string /\
     info_sample_width info = w /\
     _ma_format_from_width w false = Return (info_sample_format info) /\
     info_nchannels info = wav_channels wav /\
     info_sample_rate info = wav_sampleRate wav /\
     info_num_frames info = wav_totalPCMFrameCount wav /\
     info_max_frame_size info = 0) /\
  (w <> 1 -> w <> 2 -> w <> 4 ->
   fst (Info.wav_get_file_info filename) =
     Raise (ValueError "unsupported sample_width" [ArgInt w])).
Proof.
  intros Hfile Hopen Hrate w.
  unfold Info.wav_get_file_info, _get_filename_bytes. rewrite Hfile. cbn.
  rewrite Hopen. cbn. fold w.
  destruct (Z.eqb_spec (wav_sampleRate wav) 0); [contradiction|].
  split; [reflexivity|]. split.
  - intros [Hw | [Hw | Hw]]; rewrite Hw; cbn; eexists; repeat split.
  - intros H1 H2 H4. unfold _ma_format_from_width.
    destruct (Z.eqb_spec w 1); [contradiction|].
    destruct (Z.eqb_spec w 2); [contradiction|].
    destruct (Z.eqb_spec w 4); [contradiction|].
    reflexivity.
Qed.

Lemma wav_info_width_witness :
  snd (@Info.wav_get_file_info sim_lib sim_dr "take1.wav") =
    [drwav_close (MkDrwav 2 44100 16 44100)] /\
  exists info,
    fst (@Info.wav_get_file_info sim_lib sim_dr "take1.wav") = Return info /\
    info_file_format info = "wav"%string /\
    info_sample_width info = 2 /\
    _ma_format_from_width 2 false = Return (info_sample_format info) /\
    info_nchannels info = 2 /\
    info_sample_rate info = 44100 /\
    info_num_frames info = 44100 /\
    info_max_frame_size info = 0.
Proof.
  destruct (@wav_info_width sim_lib sim_dr "take1.wav" (MkDrwav 2 44100 16 44100))
    as (Hclose & Hok & _); try reflexivity; try discriminate.
  split; [exact Hclose|]. apply Hok. right. left. reflexivity.
Defined.

(** ** Vorbis *)

Lemma firstn_written (written rest : list byte) (n : Z) :
  blen written = n ->
  firstn (Z.to_nat n) (written ++ rest) = written.
Proof.
  intros <-. unfold blen. rewrite Nat2Z.id, firstn_app, firstn_all, Nat.sub_diag, firstn_O.
  apply app_nil_r.
Qed.

(** X26: one pull on a suspended [vorbis_stream_file] makes two reads;
    when they report [n1] and [n2] samples per channel, not both 0, and
    wrote as many 16-bit frames, the chunk is the bytes of the first read
    followed by the bytes of the second, [(n1 + n2) * channels] samples,
    and the generator stays suspended with the handle as the second read
    left it. *)
Theorem vorbis_chunk_is_both_reads {lib : NativeLib} {stb : StbVorbis} (f : vorbis_frame)
    (sent : pyval) (n1 n2 : Z) (w1 w2 : list byte) (v1 v2 : stb_vorbis) :
  stb_vorbis_get_frame_short_interleaved (vorbis f) (info_channels f)
    (4096 * info_channels f) = (n1, w1, v1) ->
  stb_vorbis_get_frame_short_interleaved v1 (info_channels f)
    (4096 * info_channels f) = (n2, w2, v2) ->
  0 <= n1 -> 0 <= n2 -> 0 < n1 + n2 ->
  blen w1 = n1 * 2 * info_channels f ->
  blen w2 = n2 * 2 * info_channels f ->
  exists chunk f',
    vorbis_send (VSuspended f) sent = (Chunk chunk, VSuspended f') /\
    raw chunk = w1 ++ w2 /\
    array_len chunk = (n1 + n2) * info_channels f /\
    vorbis f' = v2 /\ info_channels f' = info_channels f.
Proof.
  intros Hr1 Hr2 Hn1 Hn2 Hsum Hw1 Hw2.
  cbn. unfold vorbis_turn. rewrite Hr1, Hr2.
  destruct (Z.leb_spec (n1 + n2) 0); [lia|].
  rewrite !memmove_whole, (firstn_written w1 _ _ Hw1), (firstn_written w2 _ _ Hw2).
  change (_create_int_array 2) with (Return (Array "h" 2 [])). cbn.
  assert (Hm1 : blen w1 mod 2 = 0).
  { rewrite Hw1. replace (n1 * 2 * info_channels f) with (n1 * info_channels f * 2) by lia.
    apply Z.mod_mul. lia. }
  assert (Hm2 : blen w2 mod 2 = 0).
  { rewrite Hw2. replace (n2 * 2 * info_channels f) with (n2 * info_channels f * 2) by lia.
    apply Z.mod_mul. lia. }
  assert (Hlen : blen (w1 ++ w2) / 2 = (n1 + n2) * info_channels f).
  { unfold blen in *. rewrite length_app, Nat2Z.inj_add, Hw1, Hw2.
    replace (n1 * 2 * info_channels f + n2 * 2 * info_channels f)
      with ((n1 + n2) * info_channels f * 2) by lia.
    apply Z.div_mul. lia. }
  unfold frombytes at 2. cbn. rewrite Hm1. cbn.
  destruct (Z.gtb_spec n2 0) as [Hpos|Hzero].
  - unfold frombytes. cbn. rewrite Hm2.
    eexists. eexists. split; [reflexivity|]. cbn.
    repeat split. exact Hlen.
  - assert (n2 = 0) by lia. subst n2.
    assert (w2 = []) as ->.
    { destruct w2; [reflexivity|]. unfold blen in Hw2. cbn [length] in Hw2. lia. }
    eexists. eexists. split; [reflexivity|]. cbn.
    rewrite app_nil_r in *. repeat split. exact Hlen.
Qed.

Lemma vorbis_chunk_is_both_reads_witness :
  exists chunk f',
    @vorbis_send sim_lib sim_stb
       (VSuspended (MkVorbisFrame sim_stb [[x01; x00]; [x02; x00]; [x03; x00]] 1
                      (repeat x00 16) (repeat x00 16))) PyNone
      = (Chunk chunk, VSuspended f') /\
    raw chunk = [x01; x00] ++ [x02; x00] /\
    array_len chunk = (1 + 1) * 1 /\
    vorbis f' = [[x03; x00]] /\ info_channels f' = 1.
Proof.
  apply (@vorbis_chunk_is_both_reads sim_lib sim_stb
           (MkVorbisFrame sim_stb [[x01; x00]; [x02; x00]; [x03; x00]] 1
              (repeat x00 16) (repeat x00 16))
           PyNone 1 1 [x01; x00] [x02; x00] [[x02; x00]; [x03; x00]] [[x03; x00]]);
    solve [reflexivity | lia].
Defined.

(** X27: every pull on a suspended [vorbis_stream_file] makes exactly two
    reads; it either yields and stays suspended with the handle after
    the second read, or ends (end of stream or an exception) with that
    handle closed. *)
Theorem vorbis_exit_closes_handle {lib : NativeLib} {stb : StbVorbis} (f : vorbis_frame)
    (sent : pyval) :
  let v1 := snd (stb_vorbis_get_frame_short_interleaved (vorbis f) (info_channels f)
                   (4096 * info_channels f)) in
  let v2 := snd (stb_vorbis_get_frame_short_interleaved v1 (info_channels f)
                   (4096 * info_channels f)) in
  match vorbis_send (VSuspended f) sent with
  | (Chunk _, g') => exists f', g' = VSuspended f' /\ vorbis f' = v2
  | (_, g') => g' = VFinished (Some (stb_vorbis_close v2))
  end.
Proof.
  cbn. unfold vorbis_turn.
  destruct (stb_vorbis_get_frame_short_interleaved (vorbis f) _ _) as [[n1 w1] v1].
  cbn [snd].
  destruct (stb_vorbis_get_frame_short_interleaved v1 _ _) as [[n2 w2] v2].
  cbn [snd].
  destruct (n1 + n2 <=? 0); [reflexivity|].
  match goal with |- context [match ?x with Return _ => _ | Raise _ => _ end] =>
    destruct x as [chunk|e] end.
  - eexists. split; reflexivity.
  - reflexivity.
Qed.

(** X28: [vorbis_stream_file] does nothing until the first [next]; that
    pull raises [FileNotFoundError] for a name that is not a file and
    [DecodeError] when the decoder cannot open the file, and in both
    cases finishes the generator without a handle to close. *)
Theorem vorbis_stream_fails_at_first_pull {lib : NativeLib} {stb : StbVorbis}
    (filename : string) :
  (os_path_isfile (os_path_expanduser filename) = false ->
   vorbis_send (VCreated filename) PyNone =
     (Failed (FileNotFoundError filename), VFinished None)) /\
  (os_path_isfile (os_path_expanduser filename) = true ->
   stb_vorbis_open_filename (os_path_expanduser filename) = None ->
   vorbis_send (VCreated filename) PyNone =
     (Failed (DecodeError "could not open/decode file" []), VFinished None)).
Proof.
  split.
  - intros Hfile. cbn. unfold _get_filename_bytes. rewrite Hfile. reflexivity.
  - intros Hfile Hopen. cbn. unfold _get_filename_bytes. rewrite Hfile. cbn.
    rewrite Hopen. reflexivity.
Qed.

Lemma vorbis_stream_fails_at_first_pull_witness :
  @vorbis_send no_files_lib sim_stb (VCreated "take1.ogg") PyNone =
    (Failed (FileNotFoundError "take1.ogg"), VFinished None).
Proof.
  apply (proj1 (@vorbis_stream_fails_at_first_pull no_files_lib sim_stb "take1.ogg")).
  reflexivity.
Defined.

(** X29: [vorbis_read_file] on an existing file: a frame count of 0 or
    less raises [DecodeError] and frees nothing; a positive count, with
    channels and a rate other than 0 and the frames present in the
    memory the decoder returned, gives a sound with that many frames and
    [frames * channels] 16-bit samples, and the memory is handed to
    [lib.free] once. *)
Theorem vorbis_read_file_whole_frames {lib : NativeLib} {stb : StbVorbis}
    (filename : string) (frames channels rate : Z) (output : list byte) :
  os_path_isfile (os_path_expanduser filename) = true ->
  stb_vorbis_decode_filename (os_path_expanduser filename) = (frames, channels, rate, output) ->
  (frames <= 0 ->
   Reader.vorbis_read_file filename = (Raise (DecodeError "cannot load/decode file" []), [])) /\
  (0 < frames -> 0 < channels -> rate <> 0 -> frames * channels * 2 <= blen output ->
   exists sound,
     Reader.vorbis_read_file filename = (Return sound, [output]) /\
     num_frames sound = frames /\
     nchannels sound = channels /\
     sample_format sound = ma_format_s16 /\
     array_len (samples sound) = frames * channels).
Proof.
  intros Hfile Hdecode.
  unfold Reader.vorbis_read_file, _get_filename_bytes. rewrite Hfile. cbn. rewrite Hdecode.
  split.
  - intros Hle. destruct (Z.leb_spec frames 0); [reflexivity | lia].
  - intros Hf Hc Hr Hmem. destruct (Z.leb_spec frames 0); [lia|].
    change (_create_int_array 2) with (Return (Array "h" 2 [])). cbn.
    assert (Hbuf : blen (firstn (Z.to_nat (frames * channels * 2)) output)
                   = frames * channels * 2).
    { unfold blen in *. rewrite length_firstn.
      assert (0 <= frames * channels * 2) by (apply Z.mul_nonneg_nonneg; lia). lia. }
    unfold frombytes. cbn. rewrite Hbuf, Z.mod_mul by lia. cbn.
    unfold DecodedSoundFile_init.
    destruct (Z.eqb_spec channels 0); [lia|].
    destruct (Z.eqb_spec rate 0); [contradiction|].
    assert (Hlen : array_len (Array "h" 2 (firstn (Z.to_nat (frames * channels * 2)) output))
                   = frames * channels).
    { unfold array_len. cbn. rewrite Hbuf. apply Z.div_mul. lia. }
    eexists. split; [reflexivity|]. cbn.
    split; [rewrite Hlen; apply Z.div_mul; lia|].
    repeat split. exact Hlen.
Qed.

Lemma vorbis_read_file_whole_frames_witness :
  exists sound,
    @Reader.vorbis_read_file sim_lib sim_stb "take1.ogg" =
      (Return sound, [[x01; x00; x02; x00; x03; x00]]) /\
    num_frames sound = 3 /\
    nchannels sound = 1 /\
    sample_format sound = ma_format_s16 /\
    array_len (samples sound) = 3 * 1.
Proof.
  apply (proj2 (@vorbis_read_file_whole_frames sim_lib sim_stb "take1.ogg" 3 1 44100
                  [x01; x00; x02; x00; x03; x00] eq_refl eq_refl));
    solve [lia | vm_compute; discriminate].
Defined.
